(** * Achievement Management System: a shallow embedding of [app.py]

    The Flask handlers of [app.py] and the tables of [models.py] are
    transcribed as functions over an explicit world (session, database,
    upload folder, trace of effects).  Library code the application calls
    (werkzeug's hashing and filename sanitiser, [datetime.strptime], [int],
    the storage engine's ORDER BY) is collected in the [Platform] class, so
    that the theorems hold for every behaviour of those libraries unless a
    hypothesis says otherwise. *)

From Stdlib Require Import ZArith Lia Ascii String List Sorting.Sorted Sorting.Permutation.
From stdpp Require Import base option list gmap strings sorting.

Local Open Scope string_scope.
Local Open Scope Z_scope.

(** ** Python values, exceptions and the handler monad *)

(** The values the application keeps in the Flask session: [True] under
    ["logged_in"], column values (a string, or [None] for an empty nullable
    column) under the other keys. *)
Inductive pyval :=
  | PyNone
  | PyBool (b : bool)
  | PyStr (s : string).

#[global] Instance pyval_eq_dec : EqDecision pyval.
Proof. solve_decision. Defined.

(** Python truthiness. *)
Definition truthy (v : pyval) : bool :=
  match v with
  | PyNone => false
  | PyBool b => b
  | PyStr s => negb (String.eqb s "")
  end.

(** A column value or form value as a Python value. *)
Definition of_text (o : option string) : pyval :=
  match o with
  | Some s => PyStr s
  | None => PyNone
  end.

(** A Python value as the value of a text column. *)
Definition as_text (v : pyval) : option string :=
  match v with
  | PyStr s => Some s
  | _ => None
  end.

Inductive Exc :=
  | ValueError (msg : string)
  | IntegrityError (msg : string)
  | OSError (msg : string)
  | OverflowError (msg : string)
  | OtherError (msg : string).

Inductive result (A : Type) :=
  | Ok (a : A)
  | Raise (e : Exc).
Arguments Ok {A} a.
Arguments Raise {A} e.

(** ** Data model ([models.py]) *)

Record Student := {
  student_name : string;
  student_id : string;
  student_email : string;
  student_phone_number : option string;
  student_password : string;
  student_gender : option string;
  student_dept : option string;
}.

Record Teacher := {
  teacher_name : string;
  teacher_id : string;
  teacher_email : string;
  teacher_phone_number : option string;
  teacher_password : string;
  teacher_gender : option string;
  teacher_dept : option string;
}.

(** A calendar date is its proleptic Gregorian ordinal ([date.toordinal()]);
    an instant is a number of microseconds. *)
Definition date := Z.

(** An [Achievement] object.  Text attributes are [None] until a value is
    given; [id] and [created_at] are the values the engine assigns at flush
    (autoincrement, [default=datetime.utcnow]). *)
Record Achievement := {
  id : Z;
  a_student_id : option string;
  a_teacher_id : option string;
  achievement_type : option string;
  event_name : option string;
  achievement_date : date;
  organizer : option string;
  position : option string;
  achievement_description : option string;
  certificate_path : option string;
  symposium_theme : option string;
  programming_language : option string;
  coding_platform : option string;
  paper_title : option string;
  journal_name : option string;
  conference_level : option string;
  conference_role : option string;
  team_size : option Z;
  project_title : option string;
  database_type : option string;
  difficulty_level : option string;
  other_description : option string;
  created_at : Z;
}.

Record Database := {
  students : list Student;
  teachers : list Teacher;
  achievements : list Achievement;   (* in insertion order *)
  next_id : Z;
}.

(** ** The world a handler runs in *)

Inductive Event :=
  | EvSelect (table : string)
  | EvInsert (table : string)
  | EvCommit
  | EvRollback
  | EvSave (name : string)
  | EvLog (level : string) (msg : string).

Record World := {
  session : gmap string pyval;
  db : Database;
  uploads : gmap string string;     (* UPLOAD_FOLDER: file name -> content *)
  trace : list Event;               (* effects performed, oldest first *)
}.

Definition M (A : Type) : Type := World -> result A * World.

#[global] Instance M_ret : MRet M := fun A (a : A) w => (Ok a, w).

#[global] Instance M_bind : MBind M := fun A B (k : A -> M B) (m : M A) w =>
  match m w with
  | (Ok a, w') => k a w'
  | (Raise e, w') => (Raise e, w')
  end.

Definition raise {A} (e : Exc) : M A := fun w => (Raise e, w).

(** [try: m except Exception as e: h e].  Effects performed before the
    exception was raised stay in place. *)
Definition try_except {A} (m : M A) (h : Exc -> M A) : M A :=
  fun w =>
    match m w with
    | (Ok a, w') => (Ok a, w')
    | (Raise e, w') => h e w'
    end.

Definition lift {A} (r : result A) : M A := fun w => (r, w).

Definition emit (e : Event) : M unit :=
  fun w => (Ok tt, {| session := session w; db := db w; uploads := uploads w;
                      trace := trace w ++ [e] |}).

Definition get_session : M (gmap string pyval) := fun w => (Ok (session w), w).

Definition session_set (k : string) (v : pyval) : M unit :=
  fun w => (Ok tt, {| session := <[k := v]> (session w); db := db w;
                      uploads := uploads w; trace := trace w |}).

Definition session_clear : M unit :=
  fun w => (Ok tt, {| session := ∅; db := db w; uploads := uploads w;
                      trace := trace w |}).

Definition get_db : M Database := fun w => (Ok (db w), w).

Definition put_db (d : Database) : M unit :=
  fun w => (Ok tt, {| session := session w; db := d; uploads := uploads w;
                      trace := trace w |}).

(** The longest file name the file system takes, in bytes. *)
Definition NAME_MAX : nat := 255.

(** [file.save(os.path.join(UPLOAD_FOLDER, name))]: opening the file fails
    with [OSError] when the name is longer than the file system allows, and
    nothing is written then. *)
Definition file_save (name content : string) : M unit :=
  fun w =>
    if (NAME_MAX <? String.length name)%nat
    then (Raise (OSError "[Errno 36] File name too long"), w)
    else (Ok tt, {| session := session w; db := db w;
                    uploads := <[name := content]> (uploads w);
                    trace := trace w ++ [EvSave name] |}).

Definition logger (level msg : string) : M unit := emit (EvLog level msg).

(** ** Requests and responses *)

Record FileStorage := {
  filename : string;
  content : string;
}.

Record datetime := {
  year : nat;
  month : nat;
  day : nat;
  hour : nat;
  minute : nat;
  second : nat;
}.

Record Request := {
  method : string;
  form : gmap string string;
  files : gmap string FileStorage;
  now : datetime;        (* datetime.datetime.now() during the request *)
  utcnow : Z;            (* datetime.utcnow() at flush time *)
}.

Record IdentityData := {
  data_id : pyval;
  data_name : pyval;
  data_dept : pyval;
}.

Record Stats := {
  total_achievements : nat;
  students_managed : nat;
  this_week : nat;
}.

Inductive TemplateArg :=
  | arg_error (msg : string)
  | arg_success (msg : string)
  | arg_student (d : IdentityData)
  | arg_teacher (d : IdentityData)
  | arg_stats (s : Stats)
  | arg_recent_entries (l : list Achievement)
  | arg_achievements (l : list Achievement).

Inductive Response :=
  | redirect (endpoint : string) (query : list (string * string))
  | render_template (template : string) (args : list TemplateArg).

(** ** Library code the application calls *)

Class Platform := {
  (** werkzeug.security; the first argument is the salt drawn at random *)
  generate_password_hash : string -> string -> result string;
  check_password_hash : string -> string -> result bool;
  (** werkzeug.utils *)
  secure_filename : string -> string;
  (** [datetime.datetime.strptime(s, "%Y-%m-%d").date()] *)
  strptime_Ymd : string -> result date;
  (** [int(s)] *)
  py_int : string -> result Z;
  (** the engine's [ORDER BY key DESC] over rows given in insertion order *)
  order_by_desc : (Achievement -> Z) -> list Achievement -> list Achievement;
}.

(** ** String helpers (ASCII) *)

Definition is_upper (c : ascii) : bool :=
  ((65 <=? nat_of_ascii c) && (nat_of_ascii c <=? 90))%nat.

Definition lower_char (c : ascii) : ascii :=
  if is_upper c then ascii_of_nat (nat_of_ascii c + 32) else c.

(** [str.lower()] *)
Fixpoint lower (s : string) : string :=
  match s with
  | EmptyString => EmptyString
  | String c r => String (lower_char c) (lower r)
  end.

(** [c in s] *)
Fixpoint contains (c : ascii) (s : string) : bool :=
  match s with
  | EmptyString => false
  | String d r => Ascii.eqb d c || contains c r
  end.

(** [s.rsplit(sep, 1)]: split at the last occurrence of [sep], if any. *)
Fixpoint rsplit1 (sep : ascii) (s : string) : list string :=
  match s with
  | EmptyString => [EmptyString]
  | String c r =>
      match rsplit1 sep r with
      | [pre; suf] => [String c pre; suf]
      | _ => if Ascii.eqb c sep then [EmptyString; r] else [s]
      end
  end.

(** The characters [str.strip()] removes.  Text is the UTF-8 encoding of
    the Python string: the white space of the ASCII range is one byte, the
    other white-space code points two or three. *)
Definition is_space (c : ascii) : bool :=
  let n := nat_of_ascii c in
  ((9 <=? n) && (n <=? 13) || (28 <=? n) && (n <=? 32))%nat.

(** U+0085 and U+00A0 *)
Definition is_space2 (a b : ascii) : bool :=
  ((nat_of_ascii a =? 194)
   && ((nat_of_ascii b =? 133) || (nat_of_ascii b =? 160)))%nat.

(** U+1680, U+2000 to U+200A, U+2028, U+2029, U+202F, U+205F and U+3000 *)
Definition is_space3 (a b c : ascii) : bool :=
  let x := nat_of_ascii a in
  let y := nat_of_ascii b in
  let z := nat_of_ascii c in
  ((x =? 225) && (y =? 154) && (z =? 128)
   || (x =? 226) && (y =? 128)
      && ((128 <=? z) && (z <=? 138) || (z =? 168) || (z =? 169) || (z =? 175))
   || (x =? 226) && (y =? 129) && (z =? 159)
   || (x =? 227) && (y =? 128) && (z =? 128))%nat.

Fixpoint lstrip (s : string) : string :=
  match s with
  | EmptyString => EmptyString
  | String a r =>
      if is_space a then lstrip r
      else
        match r with
        | String b r2 =>
            if is_space2 a b then lstrip r2
            else
              match r2 with
              | String c r3 => if is_space3 a b c then lstrip r3 else s
              | EmptyString => s
              end
        | EmptyString => s
        end
  end.

Fixpoint reversed (s acc : string) : string :=
  match s with
  | EmptyString => acc
  | String c r => reversed r (String c acc)
  end.

(** [lstrip] on the text read backwards: the bytes of a code point come
    last byte first. *)
Fixpoint lstrip_backwards (s : string) : string :=
  match s with
  | EmptyString => EmptyString
  | String a r =>
      if is_space a then lstrip_backwards r
      else
        match r with
        | String b r2 =>
            if is_space2 b a then lstrip_backwards r2
            else
              match r2 with
              | String c r3 => if is_space3 c b a then lstrip_backwards r3 else s
              | EmptyString => s
              end
        | EmptyString => s
        end
  end.

Definition rstrip (s : string) : string :=
  reversed (lstrip_backwards (reversed s "")) "".

Definition strip (s : string) : string := lstrip (rstrip s).

(** Truthiness of a string. *)
Definition nonempty (s : string) : bool := negb (String.eqb s "").

Definition digit_char (n : nat) : ascii := ascii_of_nat (48 + n mod 10).

Definition is_digit (c : ascii) : bool :=
  ((48 <=? nat_of_ascii c) && (nat_of_ascii c <=? 57))%nat.


(** Decimal rendering without padding ([%d]); [fuel] bounds the number of
    digits. *)
Fixpoint decimal_aux (fuel n : nat) (acc : string) : string :=
  match fuel with
  | O => acc
  | S fuel' =>
      let acc' := String (digit_char n) acc in
      if (n <? 10)%nat then acc' else decimal_aux fuel' (n / 10) acc'
  end.

Definition decimal (n : nat) : string := decimal_aux (S n) n "".

(** Two decimal digits, zero padded ([%02d]). *)
Definition pad2 (n : nat) : string :=
  if (n <? 10)%nat then String "0" (decimal n) else decimal n.

(** [dt.strftime("%Y%m%d%H%M%S")]: the year as the C library prints it
    (no padding), the other fields on two digits. *)
Definition strftime_stamp (dt : datetime) : string :=
  decimal (year dt) ++ pad2 (month dt) ++ pad2 (day dt)
  ++ pad2 (hour dt) ++ pad2 (minute dt) ++ pad2 (second dt).

(** ** Calendar arithmetic ([datetime]'s ordinals) *)

Definition is_leap (y : Z) : bool :=
  (y mod 4 =? 0) && (negb (y mod 100 =? 0) || (y mod 400 =? 0)).

Definition days_before_year (y : Z) : Z :=
  let y' := y - 1 in y' * 365 + y' / 4 - y' / 100 + y' / 400.

Definition DAYS_BEFORE_MONTH : list Z :=
  [0; 0; 31; 59; 90; 120; 151; 181; 212; 243; 273; 304; 334].

Definition days_before_month (y : Z) (m : nat) : Z :=
  nth m DAYS_BEFORE_MONTH 0 + (if (2 <? m)%nat && is_leap y then 1 else 0).

Definition ymd2ord (y : Z) (m d : nat) : Z :=
  days_before_year y + days_before_month y m + Z.of_nat d.

(** [dt.date()] *)
Definition date_of (dt : datetime) : date :=
  ymd2ord (Z.of_nat (year dt)) (month dt) (day dt).

(** [d - datetime.timedelta(days=n)] *)
Definition minus_days (d : date) (n : Z) : date := d - n.

(** ** Handlers ([app.py]) *)

Section Handlers.
Context `{P : Platform}.

(** [str(e)] *)
Definition exc_msg (e : Exc) : string :=
  match e with
  | ValueError m | IntegrityError m | OSError m | OverflowError m | OtherError m => m
  end.

(** [str(x)] for a form value that may be [None] *)
Definition str_opt (o : option string) : string := default "None" o.

(** [session.get(k)] *)
Definition sget (sess : gmap string pyval) (k : string) : pyval :=
  default PyNone (sess !! k).

(** *** Password security module *)

Definition hash_password (salt : string) (plain_password : option string) : M string :=
  match plain_password with
  | None => raise (ValueError "Password cannot be empty or None")
  | Some p =>
      if String.eqb p "" then raise (ValueError "Password cannot be empty or None")
      else
        try_except (lift (generate_password_hash salt p))
          (fun e => logger "error" ("Password hashing failed: " ++ exc_msg e);;
                    raise e)
  end.

Definition verify_password (stored_hash provided_password : option string) : M bool :=
  match stored_hash, provided_password with
  | Some h, Some p =>
      if String.eqb h "" || String.eqb p "" then mret false
      else
        try_except (lift (check_password_hash h p))
          (fun e => logger "error" ("Password verification failed: " ++ exc_msg e);;
                    mret false)
  | _, _ => mret false
  end.

(** *** Upload validation *)

Definition ALLOWED_EXTENSIONS : list string := ["pdf"; "png"; "jpg"; "jpeg"].

Definition in_set (s : string) (l : list string) : bool :=
  existsb (String.eqb s) l.

Definition allowed_file (filename : string) : bool :=
  contains "." filename &&
  match rsplit1 "." filename !! 1%nat with
  | Some ext => in_set (lower ext) ALLOWED_EXTENSIONS
  | None => false
  end.

(** *** Queries *)

(** The first row whose key equals [v]; a [None] parameter matches no row. *)
Definition first_student (d : Database) (v : option string) : option Student :=
  s ← v; find (fun r => String.eqb (student_id r) s) (students d).

Definition first_teacher (d : Database) (v : option string) : option Teacher :=
  s ← v; find (fun r => String.eqb (teacher_id r) s) (teachers d).

(** [Student.query.filter_by(student_id=v).first()] *)
Definition query_student (v : option string) : M (option Student) :=
  emit (EvSelect "student");;
  d ← get_db;
  mret (first_student d v).

(** [Teacher.query.filter_by(teacher_id=v).first()] *)
Definition query_teacher (v : option string) : M (option Teacher) :=
  emit (EvSelect "teacher");;
  d ← get_db;
  mret (first_teacher d v).

(** The filter [Achievement.teacher_id == v]. *)
Definition by_teacher (v : pyval) (a : Achievement) : bool :=
  bool_decide (of_text (a_teacher_id a) = v).

(** A SELECT over the achievements table with a WHERE clause. *)
Definition select_achievements (where_ : Achievement -> bool) : M (list Achievement) :=
  emit (EvSelect "achievements");;
  d ← get_db;
  mret (List.filter where_ (achievements d)).

(** An INTEGER column holds a signed 64-bit value, or NULL. *)
Definition fits_integer (o : option Z) : bool :=
  match o with
  | Some n => (- 2 ^ 63 <=? n) && (n <? 2 ^ 63)
  | None => true
  end.

Definition not_null (a : Achievement) : bool :=
  bool_decide (is_Some (a_student_id a)) && bool_decide (is_Some (a_teacher_id a))
  && bool_decide (is_Some (achievement_type a)) && bool_decide (is_Some (event_name a))
  && bool_decide (is_Some (organizer a)) && bool_decide (is_Some (position a)).

(** [db.session.add(obj); db.session.commit()] for a new achievement: the
    engine assigns [id] and [created_at]; binding the parameters fails with
    [OverflowError] for an integer outside 64 bits, the statement fails
    when a NOT NULL column is empty, and otherwise the row is appended. *)
Definition add_commit (obj : Z -> Z -> Achievement) (stamp : Z) : M unit :=
  d ← get_db;
  let a := obj (next_id d) stamp in
  emit (EvInsert "achievements");;
  if negb (fits_integer (team_size a))
  then raise (OverflowError "Python int too large to convert to SQLite INTEGER")
  else if not_null a then
    put_db {| students := students d; teachers := teachers d;
              achievements := achievements d ++ [a];
              next_id := next_id d + 1 |};;
    emit EvCommit
  else raise (IntegrityError "NOT NULL constraint failed").

(** *** Login and logout *)

Definition student (req : Request) : M Response :=
  if String.eqb (method req) "POST" then
    let student_id_ := form req !! "sname" in
    let password := form req !! "password" in
    let failed :=
      logger "warning" ("Failed login attempt for student_id: " ++ str_opt student_id_);;
      mret (render_template "student.html"
              [arg_error "Invalid credentials. Please try again."]) in
    try_except
      (student_obj ← query_student student_id_;
       match student_obj with
       | Some so =>
           ok ← verify_password (Some (student_password so)) password;
           if ok : bool then
             session_set "logged_in" (PyBool true);;
             session_set "student_id" (PyStr (student_id so));;
             session_set "student_name" (PyStr (student_name so));;
             session_set "student_dept" (of_text (student_dept so));;
             mret (redirect "student-dashboard" [])
           else failed
       | None => failed
       end)
      (fun e =>
         logger "error" "Database error in student login";;
         mret (render_template "student.html"
                 [arg_error "A database error occurred. Please try again."]))
  else mret (render_template "student.html" []).

Definition teacher (req : Request) : M Response :=
  if String.eqb (method req) "POST" then
    let teacher_id_ := form req !! "tname" in
    let password := form req !! "password" in
    let failed :=
      logger "warning" ("Failed login attempt for teacher_id: " ++ str_opt teacher_id_);;
      mret (render_template "teacher.html"
              [arg_error "Invalid credentials. Please try again."]) in
    try_except
      (teacher_obj ← query_teacher teacher_id_;
       match teacher_obj with
       | Some to =>
           ok ← verify_password (Some (teacher_password to)) password;
           if ok : bool then
             session_set "logged_in" (PyBool true);;
             session_set "teacher_id" (PyStr (teacher_id to));;
             session_set "teacher_name" (PyStr (teacher_name to));;
             session_set "teacher_dept" (of_text (teacher_dept to));;
             mret (redirect "teacher-dashboard" [])
           else failed
       | None => failed
       end)
      (fun e =>
         logger "error" "Database error in teacher login";;
         mret (render_template "teacher.html"
                 [arg_error "A database error occurred. Please try again."]))
  else mret (render_template "teacher.html" []).

Definition logout (req : Request) : M Response :=
  try_except session_clear
    (fun e => logger "error" ("Error during logout: " ++ exc_msg e));;
  mret (redirect "home" []).

(** *** Achievement submission *)

Definition submit_form (a : TemplateArg) : Response :=
  render_template "submit_achievements.html" [a].

(** The certificate step: either the path to record, or the response of an
    early [return]. *)
Definition store_certificate (req : Request) : M (option string + Response) :=
  match files req !! "certificate" with
  | Some file =>
      if nonempty (filename file) then
        if allowed_file (filename file) then
          let timestamp := strftime_stamp (now req) in
          let secure_name := timestamp ++ "_" ++ secure_filename (filename file) in
          file_save secure_name (content file);;
          mret (inl (Some ("uploads/" ++ secure_name)))
        else
          mret (inr (submit_form
            (arg_error "Invalid file type. Please upload PDF, PNG, JPG, or JPEG files.")))
      else mret (inl None)
  | None => mret (inl None)
  end.

(** [int(team_size_raw) if team_size_raw and team_size_raw.strip() else None] *)
Definition parse_team_size (team_size_raw : option string) : M (option Z) :=
  match team_size_raw with
  | Some raw =>
      if nonempty raw && nonempty (strip raw) then n ← lift (py_int raw); mret (Some n)
      else mret None
  | None => mret None
  end.

(** [Achievement(...)] with the keyword arguments of the handler; the two
    remaining attributes are filled in by the engine. *)
Definition new_achievement (req : Request) (student_id_ : option string)
    (teacher_id_ : pyval) (achievement_date_ : date)
    (certificate_path_ : option string) (team_size_ : option Z)
    (id_ created_at_ : Z) : Achievement :=
  {| id := id_;
     a_student_id := student_id_;
     a_teacher_id := as_text teacher_id_;
     achievement_type := form req !! "achievement_type";
     event_name := form req !! "event_name";
     achievement_date := achievement_date_;
     organizer := form req !! "organizer";
     position := form req !! "position";
     achievement_description := form req !! "achievement_description";
     certificate_path := certificate_path_;
     symposium_theme := form req !! "symposium_theme";
     programming_language := form req !! "programming_language";
     coding_platform := form req !! "coding_platform";
     paper_title := form req !! "paper_title";
     journal_name := form req !! "journal_name";
     conference_level := form req !! "conference_level";
     conference_role := form req !! "conference_role";
     team_size := team_size_;
     project_title := form req !! "project_title";
     database_type := form req !! "database_type";
     difficulty_level := form req !! "difficulty_level";
     other_description := form req !! "other_description";
     created_at := created_at_ |}.

(** The handler from the team-size parse to its last [return]. *)
Definition record_achievement (req : Request) (student_id_ : option string)
    (student_name_ : string) (teacher_id_ : pyval)
    (certificate_path_ : option string) : M Response :=
  team_size_ ← parse_team_size (form req !! "team_size");
  match form req !! "achievement_date" with
  | None => mret (submit_form (arg_error "Achievement date is required."))
  | Some date_str =>
      if negb (nonempty date_str)
      then mret (submit_form (arg_error "Achievement date is required."))
      else
        match strptime_Ymd date_str with
        | Raise (ValueError _) =>
            mret (submit_form (arg_error "Invalid date format. Please use YYYY-MM-DD."))
        | Raise e => raise e
        | Ok achievement_date_ =>
            try_except
              (add_commit
                 (new_achievement req student_id_ teacher_id_
                    achievement_date_ certificate_path_ team_size_)
                 (utcnow req);;
               mret (submit_form (arg_success
                 ("Achievement of " ++ student_name_
                  ++ " has been successfully registered!!"))))
              (fun e =>
                 emit EvRollback;;
                 logger "error" "Error submitting achievement";;
                 mret (submit_form (arg_error "An error occurred. Please try again.")))
        end
  end.

Definition submit_achievements (req : Request) : M Response :=
  sess ← get_session;
  if negb (truthy (sget sess "logged_in")) || negb (truthy (sget sess "teacher_id"))
  then mret (redirect "teacher" [])
  else
    let teacher_id_ := sget sess "teacher_id" in
    if String.eqb (method req) "POST" then
      let student_id_ := form req !! "student_id" in
      student_obj ← query_student student_id_;
      match student_obj with
      | None => mret (submit_form (arg_error "Student ID does not exist in the system."))
      | Some so =>
          let student_name_ := student_name so in
          cert ← store_certificate req;
          match cert with
          | inr early => mret early
          | inl certificate_path_ =>
              record_achievement req student_id_ student_name_ teacher_id_
                certificate_path_
          end
      end
    else
      mret (redirect "teacher-dashboard"
              [("success", "Achievement submitted successfully!")]).

(** *** Dashboards and listings *)

Definition student_data (sess : gmap string pyval) : IdentityData :=
  {| data_id := sget sess "student_id";
     data_name := sget sess "student_name";
     data_dept := sget sess "student_dept" |}.

Definition student_dashboard (req : Request) : M Response :=
  sess ← get_session;
  if negb (truthy (sget sess "logged_in")) then mret (redirect "student" [])
  else mret (render_template "student_dashboard.html" [arg_student (student_data sess)]).

(** [COUNT(DISTINCT student_id)]: NULLs are not counted. *)
Definition count_distinct_students (rows : list Achievement) : nat :=
  length (remove_dups (omap a_student_id rows)).

(** The four queries of the handler are four SELECTs; a count is never
    [None], so [... or 0] is the count itself.  Subtracting seven days and
    taking [.date()] is taking the date and subtracting seven days. *)
Definition teacher_dashboard (req : Request) : M Response :=
  sess ← get_session;
  if negb (truthy (sget sess "logged_in")) then mret (redirect "teacher" [])
  else
    let teacher_id_ := sget sess "teacher_id" in
    let teacher_data :=
      {| data_id := teacher_id_;
         data_name := sget sess "teacher_name";
         data_dept := sget sess "teacher_dept" |} in
    rows ← select_achievements (by_teacher teacher_id_);
    let total_achievements_ := length rows in
    rows ← select_achievements (by_teacher teacher_id_);
    let students_managed_ := count_distinct_students rows in
    let one_week_ago := minus_days (date_of (now req)) 7 in
    rows ← select_achievements
             (fun a => by_teacher teacher_id_ a && (one_week_ago <=? achievement_date a));
    let this_week_count := length rows in
    rows ← select_achievements (by_teacher teacher_id_);
    let recent_entries := take 5 (order_by_desc created_at rows) in
    let stats :=
      {| total_achievements := total_achievements_;
         students_managed := students_managed_;
         this_week := this_week_count |} in
    mret (render_template "teacher_dashboard.html"
            [arg_teacher teacher_data; arg_stats stats;
             arg_recent_entries recent_entries]).

Definition all_achievements (req : Request) : M Response :=
  sess ← get_session;
  if negb (truthy (sget sess "logged_in")) then mret (redirect "teacher" [])
  else
    let teacher_id_ := sget sess "teacher_id" in
    rows ← select_achievements (by_teacher teacher_id_);
    mret (render_template "all_achievements.html"
            [arg_achievements (order_by_desc achievement_date rows)]).

(** [student-achievements]: the same gate and data as the student
    dashboard, another template. *)
Definition student_achievements (req : Request) : M Response :=
  sess ← get_session;
  if negb (truthy (sget sess "logged_in")) then mret (redirect "student" [])
  else mret (render_template "student_achievements_1.html" [arg_student (student_data sess)]).

(** *** Static pages *)

Definition home (req : Request) : M Response := mret (render_template "home.html" []).

Definition index (req : Request) : M Response := mret (render_template "index.html" []).

Definition teacher_achievements (req : Request) : M Response :=
  mret (render_template "teacher_achievements_2.html" []).

(** *** Registration *)

(** [db.session.add(Student(...)); db.session.commit()]: the NOT NULL
    columns must be given, the primary key and the email must be new. *)
Definition add_commit_student (name_ id_ email_ phone_ : option string)
    (password_ : string) (gender_ dept_ : option string) : M unit :=
  emit (EvInsert "student");;
  match name_, id_, email_ with
  | Some n, Some i, Some e =>
      d ← get_db;
      if existsb (fun r => String.eqb (student_id r) i) (students d)
         || existsb (fun r => String.eqb (student_email r) e) (students d)
      then raise (IntegrityError "UNIQUE constraint failed")
      else
        put_db {| students :=
                    students d ++
                    [{| student_name := n; student_id := i; student_email := e;
                        student_phone_number := phone_; student_password := password_;
                        student_gender := gender_; student_dept := dept_ |}];
                  teachers := teachers d;
                  achievements := achievements d;
                  next_id := next_id d |};;
        emit EvCommit
  | _, _, _ => raise (IntegrityError "NOT NULL constraint failed")
  end.

(** [db.session.add(Teacher(...)); db.session.commit()] *)
Definition add_commit_teacher (name_ id_ email_ phone_ : option string)
    (password_ : string) (gender_ dept_ : option string) : M unit :=
  emit (EvInsert "teacher");;
  match name_, id_, email_ with
  | Some n, Some i, Some e =>
      d ← get_db;
      if existsb (fun r => String.eqb (teacher_id r) i) (teachers d)
         || existsb (fun r => String.eqb (teacher_email r) e) (teachers d)
      then raise (IntegrityError "UNIQUE constraint failed")
      else
        put_db {| students := students d;
                  teachers :=
                    teachers d ++
                    [{| teacher_name := n; teacher_id := i; teacher_email := e;
                        teacher_phone_number := phone_; teacher_password := password_;
                        teacher_gender := gender_; teacher_dept := dept_ |}];
                  achievements := achievements d;
                  next_id := next_id d |};;
        emit EvCommit
  | _, _, _ => raise (IntegrityError "NOT NULL constraint failed")
  end.

(** The first [try] of a registration handler: the hash, or the response of
    the [except] clause that caught the failure.  [salt] is the random
    draw of the hashing library. *)
Definition hash_or_page (template salt : string) (password : option string)
    : M (string + Response) :=
  try_except (h ← hash_password salt password; mret (inl h))
    (fun e =>
       match e with
       | ValueError _ =>
           mret (inr (render_template template
                        [arg_error "Password cannot be empty. Please try again."]))
       | _ =>
           logger "error" "Password hashing failed";;
           mret (inr (render_template template
                        [arg_error "Unable to create account. Please try again."]))
       end).

Definition student_new (salt : string) (req : Request) : M Response :=
  if String.eqb (method req) "POST" then
    let student_name_ := form req !! "student_name" in
    let student_id_ := form req !! "student_id" in
    let email := form req !! "email" in
    let phone_number := form req !! "phone_number" in
    let password := form req !! "password" in
    let student_gender_ := form req !! "student_gender" in
    let student_dept_ := form req !! "student_dept" in
    hashed ← hash_or_page "student_new_2.html" salt password;
    match hashed with
    | inr early => mret early
    | inl hashed_password =>
        try_except
          (add_commit_student student_name_ student_id_ email phone_number
             hashed_password student_gender_ student_dept_;;
           mret (redirect "student" []))
          (fun e =>
             emit EvRollback;;
             logger "error" "Database error in student registration";;
             mret (render_template "student_new_2.html"
                     [arg_error "A database error occurred. Please try again."]))
    end
  else mret (render_template "student_new_2.html" []).

Definition teacher_new (salt : string) (req : Request) : M Response :=
  if String.eqb (method req) "POST" then
    let teacher_name_ := form req !! "teacher_name" in
    let teacher_id_ := form req !! "teacher_id" in
    let email := form req !! "email" in
    let phone_number := form req !! "phone_number" in
    let password := form req !! "password" in
    let teacher_gender_ := form req !! "teacher_gender" in
    let teacher_dept_ := form req !! "teacher_dept" in
    hashed ← hash_or_page "teacher_new_2.html" salt password;
    match hashed with
    | inr early => mret early
    | inl hashed_password =>
        try_except
          (add_commit_teacher teacher_name_ teacher_id_ email phone_number
             hashed_password teacher_gender_ teacher_dept_;;
           mret (redirect "teacher" []))
          (fun e =>
             emit EvRollback;;
             logger "error" "Database error in teacher registration";;
             mret (render_template "teacher_new_2.html"
                     [arg_error "A database error occurred. Please try again."]))
    end
  else mret (render_template "teacher_new_2.html" []).

End Handlers.

(** ** A reference platform

    Executable stand-ins for the library code, used to run the handlers on
    concrete requests.  They follow the libraries on ASCII input: the hash is
    a toy one (the contract of werkzeug's, not its algorithm). *)

Module Sample.

Definition toy_hash (salt password : string) : result string :=
  Ok ("toy$" ++ password).

Definition toy_check (pwhash password : string) : result bool :=
  if negb (contains "$" pwhash) then Ok false
  else if String.prefix "toy$" pwhash then Ok (String.eqb pwhash ("toy$" ++ password))
  else Raise (ValueError "Invalid hash method.").

(** werkzeug's [secure_filename] on a POSIX host: path separators become
    spaces, runs of whitespace become one underscore, characters outside
    [A-Za-z0-9_.-] are dropped, leading and trailing dots and underscores
    are stripped. *)
Definition is_safe_char (c : ascii) : bool :=
  let n := nat_of_ascii c in
  (is_digit c || is_upper c || (97 <=? n) && (n <=? 122)
   || (n =? 95) || (n =? 46) || (n =? 45))%nat.

Fixpoint underscore_join (pending : bool) (s : string) : string :=
  match s with
  | EmptyString => EmptyString
  | String c r =>
      if is_space c || Ascii.eqb c "/" then underscore_join true r
      else if pending then String "_" (String c (underscore_join false r))
      else String c (underscore_join false r)
  end.

Fixpoint keep_safe (s : string) : string :=
  match s with
  | EmptyString => EmptyString
  | String c r => if is_safe_char c then String c (keep_safe r) else keep_safe r
  end.

Definition is_dot_or_underscore (c : ascii) : bool :=
  Ascii.eqb c "." || Ascii.eqb c "_".

Fixpoint lstrip_dots (s : string) : string :=
  match s with
  | EmptyString => EmptyString
  | String c r => if is_dot_or_underscore c then lstrip_dots r else s
  end.

Fixpoint rstrip_dots (s : string) : string :=
  match s with
  | EmptyString => EmptyString
  | String c r =>
      match rstrip_dots r with
      | EmptyString => if is_dot_or_underscore c then EmptyString else String c EmptyString
      | r' => String c r'
      end
  end.

Fixpoint skip_separators (s : string) : string :=
  match s with
  | EmptyString => EmptyString
  | String c r => if is_space c || Ascii.eqb c "/" then skip_separators r else s
  end.

Definition posix_secure_filename (name : string) : string :=
  lstrip_dots (rstrip_dots (keep_safe (underscore_join false (skip_separators name)))).

(** Digits of an ASCII decimal numeral. *)
Definition digit_value (c : ascii) : option Z :=
  if is_digit c then Some (Z.of_nat (nat_of_ascii c) - 48) else None.

(** [int(s)] on ASCII text: surrounding whitespace, an optional sign,
    digits with single underscores between them. *)
Fixpoint int_digits (s : string) (acc : Z) (after_digit : bool) : option Z :=
  match s with
  | EmptyString => if after_digit then Some acc else None
  | String c r =>
      match digit_value c with
      | Some d => int_digits r (acc * 10 + d) true
      | None =>
          if Ascii.eqb c "_" && after_digit then
            match r with
            | String c' _ => if is_digit c' then int_digits r acc false else None
            | EmptyString => None
            end
          else None
      end
  end.

Definition int_literal_error (s : string) : Exc :=
  ValueError ("invalid literal for int() with base 10: '" ++ s ++ "'").

Definition ascii_int (s : string) : result Z :=
  let body := strip s in
  let parsed :=
    match body with
    | String "-" r => Z.opp <$> int_digits r 0 false
    | String "+" r => int_digits r 0 false
    | _ => int_digits body 0 false
    end in
  match parsed with
  | Some n => Ok n
  | None => Raise (int_literal_error s)
  end.

(** [strptime(s, "%Y-%m-%d").date()] on ASCII text: four digits, a dash,
    a month [1[0-2]|0[1-9]|[1-9]], a dash, a day
    [3[01]|[12]\d|0[1-9]|[1-9]| [1-9]], nothing after; then the date must
    exist. *)
Definition DAYS_IN_MONTH : list nat :=
  [0; 31; 28; 31; 30; 31; 30; 31; 31; 30; 31; 30; 31]%nat.

Definition days_in_month (y : Z) (m : nat) : nat :=
  if (m =? 2)%nat && is_leap y then 29%nat else nth m DAYS_IN_MONTH 0%nat.

Definition two_digits (a b : ascii) : option nat :=
  match digit_value a, digit_value b with
  | Some x, Some y => Some (Z.to_nat (x * 10 + y))
  | _, _ => None
  end.

Definition one_digit (a : ascii) : option nat :=
  match digit_value a with
  | Some x => if 0 <? x then Some (Z.to_nat x) else None
  | None => None
  end.

Definition parse_day (s : string) : option nat :=
  match s with
  | String a EmptyString => one_digit a
  | String a (String b EmptyString) =>
      if Ascii.eqb a " " then one_digit b
      else
        match two_digits a b with
        | Some n => if ((1 <=? n) && (n <=? 31))%nat then Some n else None
        | None => None
        end
  | _ => None
  end.

Definition parse_month_day (s : string) : option (nat * nat) :=
  match s with
  | String a (String "-" r) => m ← one_digit a; d ← parse_day r; Some (m, d)
  | String a (String b (String "-" r)) =>
      m ← two_digits a b;
      if ((1 <=? m) && (m <=? 12))%nat then d ← parse_day r; Some (m, d) else None
  | _ => None
  end.

Definition strptime_error (s : string) : Exc :=
  ValueError ("time data '" ++ s ++ "' does not match format '%Y-%m-%d'").

Definition ascii_strptime_Ymd (s : string) : result date :=
  match s with
  | String a (String b (String c (String d (String "-" r)))) =>
      match two_digits a b, two_digits c d, parse_month_day r with
      | Some hi, Some lo, Some (m, dd) =>
          let y := Z.of_nat (hi * 100 + lo) in
          if (1 <=? y) && (dd <=? days_in_month y m)%nat then Ok (ymd2ord y m dd)
          else Raise (ValueError "day is out of range for month")
      | _, _, _ => Raise (strptime_error s)
      end
  | _ => Raise (strptime_error s)
  end.

(** ORDER BY key DESC as a stable insertion sort: among rows with the same
    key, the row inserted first comes first. *)
Fixpoint insert_desc (key : Achievement -> Z) (a : Achievement)
    (l : list Achievement) : list Achievement :=
  match l with
  | [] => [a]
  | b :: l' => if key b <=? key a then a :: b :: l' else b :: insert_desc key a l'
  end.

Definition stable_order_by_desc (key : Achievement -> Z) (l : list Achievement) : list Achievement :=
  foldr (insert_desc key) [] l.

#[export] Instance platform : Platform := {|
  generate_password_hash := toy_hash;
  check_password_hash := toy_check;
  secure_filename := posix_secure_filename;
  strptime_Ymd := ascii_strptime_Ymd;
  py_int := ascii_int;
  order_by_desc := stable_order_by_desc;
|}.

End Sample.

(** ** Worlds and requests used in the concrete runs *)

Definition empty_db : Database :=
  {| students := []; teachers := []; achievements := []; next_id := 1 |}.

Definition world0 : World :=
  {| session := ∅; db := empty_db; uploads := ∅; trace := [] |}.

Definition alice : Student :=
  {| student_name := "Alice"; student_id := "S1"; student_email := "alice@example.org";
     student_phone_number := None; student_password := "toy$secret";
     student_gender := None; student_dept := Some "CSE" |}.

Definition carol : Student :=
  {| student_name := "Carol"; student_id := "S2"; student_email := "carol@example.org";
     student_phone_number := None; student_password := "toy$hunter2";
     student_gender := None; student_dept := None |}.

Definition mr_t : Teacher :=
  {| teacher_name := "Turing"; teacher_id := "T1"; teacher_email := "t1@example.org";
     teacher_phone_number := None; teacher_password := "toy$chalk";
     teacher_gender := None; teacher_dept := Some "CSE" |}.

Definition school_db : Database :=
  {| students := [alice; carol]; teachers := [mr_t]; achievements := []; next_id := 1 |}.

Definition school : World :=
  {| session := ∅; db := school_db; uploads := ∅; trace := [] |}.

(** 2024-03-10 12:00:09 *)
Definition noon : datetime :=
  {| year := 2024; month := 3; day := 10; hour := 12; minute := 0; second := 9 |}.

Definition request (m : string) (fields : list (string * string))
    (parts : list (string * FileStorage)) : Request :=
  {| method := m; form := list_to_map fields; files := list_to_map parts;
     now := noon; utcnow := 1710072009000000 |}.

Definition get : Request := request "GET" [] [].

Definition post (fields : list (string * string)) : Request := request "POST" fields [].

(** The world after a successful login of student [S1], and of teacher [T1]. *)
Definition student_logged_in : World :=
  snd (student (P := Sample.platform) (post [("sname", "S1"); ("password", "secret")]) school).

Definition teacher_logged_in : World :=
  snd (teacher (P := Sample.platform) (post [("tname", "T1"); ("password", "chalk")]) school).

(** * Specification vocabulary

    Names for the situations and outcomes the properties below speak
    about. *)

Section Vocabulary.
Context `{P : Platform}.

Definition empty_password_error : Exc :=
  ValueError "Password cannot be empty or None".

(** The two ways a student login fails. *)
Definition student_not_found (req : Request) (w : World) : Prop :=
  first_student (db w) (form req !! "sname") = None.

Definition student_wrong_password (req : Request) (w : World) : Prop :=
  ∃ so, first_student (db w) (form req !! "sname") = Some so
        ∧ fst (verify_password (Some (student_password so)) (form req !! "password") w)
          = Ok false.

Definition teacher_not_found (req : Request) (w : World) : Prop :=
  first_teacher (db w) (form req !! "tname") = None.

Definition teacher_wrong_password (req : Request) (w : World) : Prop :=
  ∃ to, first_teacher (db w) (form req !! "tname") = Some to
        ∧ fst (verify_password (Some (teacher_password to)) (form req !! "password") w)
          = Ok false.

(** The request with its "certificate" part removed. *)
Definition without_certificate (req : Request) : Request :=
  {| method := method req; form := form req;
     files := delete "certificate" (files req);
     now := now req; utcnow := utcnow req |}.

(** The name a certificate is saved under. *)
Definition stored_name (req : Request) (f : FileStorage) : string :=
  (strftime_stamp (now req) ++ "_" ++ secure_filename (filename f))%string.

(** The conditions under which the certificate step and the team-size parse
    let the handler reach the date check: the certificate, if there is one,
    has an allowed extension and a stored name the file system takes. *)
Definition certificate_acceptable (req : Request) : Prop :=
  match files req !! "certificate" with
  | Some f =>
      filename f = ""
      ∨ (allowed_file (filename f) = true
         ∧ (String.length (stored_name req f) <= NAME_MAX)%nat)
  | None => True
  end.

Definition team_size_readable (req : Request) : Prop :=
  match form req !! "team_size" with
  | Some raw => strip raw = "" ∨ ∃ n, py_int raw = Ok n
  | None => True
  end.

(** The upload folder once the certificate step has run. *)
Definition uploads_after_certificate (req : Request) (w : World) : gmap string string :=
  match files req !! "certificate" with
  | Some f =>
      if nonempty (filename f)
      then <[(strftime_stamp (now req) ++ "_" ++ secure_filename (filename f))%string
             := content f]> (uploads w)
      else uploads w
  | None => uploads w
  end.

End Vocabulary.

(** What the application relies on from werkzeug's pair of functions: a
    non-empty password always hashes, to a non-empty string; checking that
    string accepts the password it was made from and no other. *)
Class HashContract (P : Platform) : Prop := {
  hash_produced : ∀ salt p, p ≠ "" -> ∃ h, generate_password_hash salt p = Ok h ∧ h ≠ "";
  check_accepts : ∀ salt p h,
    generate_password_hash salt p = Ok h -> check_password_hash h p = Ok true;
  check_rejects : ∀ salt p h q,
    generate_password_hash salt p = Ok h -> q ≠ p -> check_password_hash h q = Ok false;
}.

Definition invalid_credentials (template : string) : Response :=
  render_template template [arg_error "Invalid credentials. Please try again."].

Definition active_teacher_session (sess : gmap string pyval) : bool :=
  truthy (sget sess "logged_in") && truthy (sget sess "teacher_id").

(** The world with further events on its trace and nothing else changed. *)
Definition logged (w : World) (evs : list Event) : World :=
  {| session := session w; db := db w; uploads := uploads w;
     trace := trace w ++ evs |}.

Definition saved (w : World) (name content : string) : World :=
  {| session := session w; db := db w; uploads := <[name := content]> (uploads w);
     trace := trace w ++ [EvSave name] |}.

Definition unknown_student_page : Response :=
  submit_form (arg_error "Student ID does not exist in the system.").

Definition invalid_file_type_page : Response :=
  submit_form (arg_error "Invalid file type. Please upload PDF, PNG, JPG, or JPEG files.").

Definition date_format_page : Response :=
  submit_form (arg_error "Invalid date format. Please use YYYY-MM-DD.").

(** The spec's sentence on a date that does not parse, as it is written:
    the store and the upload folder are as before the request. *)
Definition no_other_action (before after : World) : Prop :=
  db after = db before ∧ uploads after = uploads before.



(** What the application relies on from the engine's ORDER BY: the rows
    come back rearranged, largest key first. *)
Class OrderByContract (P : Platform) : Prop := {
  order_by_perm : ∀ key l, Permutation (order_by_desc key l) l;
  order_by_sorted : ∀ key l,
    StronglySorted (fun a b => key b <= key a) (order_by_desc key l);
}.



(** The statistics a rendered dashboard shows. *)
Definition stats_of (r : result Response) : option Stats :=
  match r with
  | Ok (render_template _ [_; arg_stats s; _]) => Some s
  | _ => None
  end.

Definition dashboard_queries : list Event :=
  [EvSelect "achievements"; EvSelect "achievements";
   EvSelect "achievements"; EvSelect "achievements"].


(** Three rows recorded by [T1] for two students. *)
Definition submission (student date_str : string) : Request :=
  post [("student_id", student); ("achievement_type", "hackathon");
        ("event_name", "Code Jam"); ("achievement_date", date_str);
        ("organizer", "ACM"); ("position", "1st")].

Definition three_rows : World :=
  let w1 := snd (submit_achievements (P := Sample.platform)
                   (submission "S1" "2024-03-08") teacher_logged_in) in
  let w2 := snd (submit_achievements (P := Sample.platform)
                   (submission "S2" "2024-02-01") w1) in
  snd (submit_achievements (P := Sample.platform) (submission "S1" "2024-03-03") w2).

(** ** Further vocabulary: registration, sessions, listings *)

Definition password_empty_page (template : string) : Response :=
  render_template template [arg_error "Password cannot be empty. Please try again."].

Definition unable_to_create_page (template : string) : Response :=
  render_template template [arg_error "Unable to create account. Please try again."].

Definition database_error_page (template : string) : Response :=
  render_template template [arg_error "A database error occurred. Please try again."].

Definition generic_error_page : Response :=
  submit_form (arg_error "An error occurred. Please try again.").

(** The page a registration handler answers with when hashing raised [e]. *)
Definition hashing_failure_page (template : string) (e : Exc) : Response :=
  match e with
  | ValueError _ => password_empty_page template
  | _ => unable_to_create_page template
  end.

(** Identifiers and emails are unique in both identity tables. *)
Definition identities_unique (d : Database) : Prop :=
  NoDup (student_id <$> students d) ∧ NoDup (student_email <$> students d)
  ∧ NoDup (teacher_id <$> teachers d) ∧ NoDup (teacher_email <$> teachers d).

(** The row a student registration inserts. *)
Definition student_row (req : Request) (n i e hash : string) : Student :=
  {| student_name := n; student_id := i; student_email := e;
     student_phone_number := form req !! "phone_number"; student_password := hash;
     student_gender := form req !! "student_gender";
     student_dept := form req !! "student_dept" |}.

Definition teacher_row (req : Request) (n i e hash : string) : Teacher :=
  {| teacher_name := n; teacher_id := i; teacher_email := e;
     teacher_phone_number := form req !! "phone_number"; teacher_password := hash;
     teacher_gender := form req !! "teacher_gender";
     teacher_dept := form req !! "teacher_dept" |}.

(** A platform whose hashing primitive always raises [e]. *)
Definition failing_hash_platform (e : Exc) : Platform := {|
  generate_password_hash := fun _ _ => Raise e;
  check_password_hash := Sample.toy_check;
  secure_filename := Sample.posix_secure_filename;
  strptime_Ymd := Sample.ascii_strptime_Ymd;
  py_int := Sample.ascii_int;
  order_by_desc := Sample.stable_order_by_desc;
|}.

(** The session a login writes: the flag and the three display fields over
    what was there. *)
Definition student_session (so : Student) (sess : gmap string pyval) : gmap string pyval :=
  <["student_dept" := of_text (student_dept so)]>
    (<["student_name" := PyStr (student_name so)]>
       (<["student_id" := PyStr (student_id so)]>
          (<["logged_in" := PyBool true]> sess))).

Definition teacher_session (to : Teacher) (sess : gmap string pyval) : gmap string pyval :=
  <["teacher_dept" := of_text (teacher_dept to)]>
    (<["teacher_name" := PyStr (teacher_name to)]>
       (<["teacher_id" := PyStr (teacher_id to)]>
          (<["logged_in" := PyBool true]> sess))).

Definition with_session (w : World) (sess : gmap string pyval) : World :=
  {| session := sess; db := db w; uploads := uploads w; trace := trace w |}.

(** A registration form for a student. *)
Definition registration (name_ id_ email_ password_ : string) : Request :=
  post [("student_name", name_); ("student_id", id_); ("email", email_);
        ("password", password_); ("student_dept", "ECE")].

Definition teacher_registration (name_ id_ email_ password_ : string) : Request :=
  post [("teacher_name", name_); ("teacher_id", id_); ("email", email_);
        ("password", password_); ("teacher_dept", "ECE")].

(** The reasons for which the engine refuses a new student row. *)
Definition student_insert_refused (req : Request) (d : Database) : Prop :=
  form req !! "student_name" = None ∨ form req !! "student_id" = None
  ∨ form req !! "email" = None
  ∨ (∃ i, form req !! "student_id" = Some i ∧ i ∈ student_id <$> students d)
  ∨ (∃ e, form req !! "email" = Some e ∧ e ∈ student_email <$> students d).

Section SubmissionVocabulary.
Context `{P : Platform}.

(** The path [submit_achievements] records for the request's certificate. *)
Definition recorded_certificate_path (req : Request) : option string :=
  match files req !! "certificate" with
  | Some f =>
      if nonempty (filename f)
      then Some ("uploads/" ++ strftime_stamp (now req) ++ "_"
                 ++ secure_filename (filename f))%string
      else None
  | None => None
  end.

(** The team size the request asks for: none when the field is absent or
    blank, the integer it spells otherwise. *)
Definition team_size_is (req : Request) (ts : option Z) : Prop :=
  match form req !! "team_size" with
  | Some raw =>
      (strip raw = "" ∧ ts = None) ∨ (strip raw ≠ "" ∧ ∃ n, py_int raw = Ok n ∧ ts = Some n)
  | None => ts = None
  end.

End SubmissionVocabulary.

(** The four columns of an achievement that the form must fill. *)
Definition required_fields_given (req : Request) : Prop :=
  is_Some (form req !! "achievement_type") ∧ is_Some (form req !! "event_name")
  ∧ is_Some (form req !! "organizer") ∧ is_Some (form req !! "position").

Definition success_page (name : string) : Response :=
  submit_form (arg_success ("Achievement of " ++ name
                            ++ " has been successfully registered!!")%string).

(** * Properties *)

(** ** Credential module *)

Section Credential.
Context `{P : Platform}.

Lemma hash_password_None salt w :
  hash_password salt None w = (Raise empty_password_error, w).
Proof. reflexivity. Qed.

Lemma hash_password_empty salt w :
  hash_password salt (Some "") w = (Raise empty_password_error, w).
Proof. reflexivity. Qed.

Lemma hash_password_ok salt p h w :
  p ≠ "" -> generate_password_hash salt p = Ok h ->
  hash_password salt (Some p) w = (Ok h, w).
Proof.
  intros Hp Hg. unfold hash_password.
  destruct (String.eqb_spec p "") as [->|_]; [done|].
  unfold try_except, lift. now rewrite Hg.
Qed.

(** A failure of the primitive is logged and raised again. *)
Lemma hash_password_reraises salt p e w :
  p ≠ "" -> generate_password_hash salt p = Raise e ->
  fst (hash_password salt (Some p) w) = Raise e.
Proof.
  intros Hp Hg. unfold hash_password.
  destruct (String.eqb_spec p "") as [->|_]; [done|].
  unfold try_except, lift. now rewrite Hg.
Qed.

Lemma verify_password_missing h p w :
  h = None ∨ h = Some "" ∨ p = None ∨ p = Some "" ->
  verify_password h p w = (Ok false, w).
Proof.
  intros [Hh|[Hh|[Hp|Hp]]]; subst; unfold verify_password; try done.
  - now destruct p.
  - now destruct h.
  - destruct h as [h|]; [|done]. now rewrite orb_true_r.
Qed.

Lemma verify_password_checked h p w b :
  h ≠ "" -> p ≠ "" -> check_password_hash h p = Ok b ->
  verify_password (Some h) (Some p) w = (Ok b, w).
Proof.
  intros Hh Hp Hc. unfold verify_password.
  destruct (String.eqb_spec h "") as [->|_]; [done|].
  destruct (String.eqb_spec p "") as [->|_]; [done|].
  simpl. unfold try_except, lift. now rewrite Hc.
Qed.

Lemma verify_password_internal_failure h p w e :
  check_password_hash h p = Raise e ->
  fst (verify_password (Some h) (Some p) w) = Ok false.
Proof.
  intros Hc. unfold verify_password.
  destruct (_ || _); [done|].
  unfold try_except, lift. now rewrite Hc.
Qed.

(** [verify_password] returns a boolean on every input and in every world;
    its answer does not depend on the world. *)
Lemma verify_password_total h p w :
  ∃ b, fst (verify_password h p w) = Ok b.
Proof.
  unfold verify_password. destruct h as [h|], p as [p|]; try (by eexists).
  destruct (_ || _); [by eexists|].
  unfold try_except, lift. destruct (check_password_hash h p); by eexists.
Qed.

Lemma verify_password_world h p w1 w2 :
  fst (verify_password h p w1) = fst (verify_password h p w2).
Proof.
  unfold verify_password. destruct h as [h|], p as [p|]; try done.
  destruct (_ || _); [done|].
  unfold try_except, lift. now destruct (check_password_hash h p).
Qed.

(** The world after [verify_password] differs from the one before by log
    records only. *)
Lemma verify_password_frame h p w :
  let w' := snd (verify_password h p w) in
  session w' = session w ∧ db w' = db w ∧ uploads w' = uploads w.
Proof.
  unfold verify_password. destruct h as [h|], p as [p|]; try done.
  destruct (_ || _); [done|].
  unfold try_except, lift. now destruct (check_password_hash h p).
Qed.

End Credential.

Lemma length_append (s t : string) :
  String.length (s ++ t) = (String.length s + String.length t)%nat.
Proof. induction s as [|c s IH]; simpl; [done|]. now rewrite IH. Qed.

Lemma append_cancel_l (s p q : string) : (s ++ p)%string = (s ++ q)%string -> p = q.
Proof. induction s as [|c s IH]; [done|]. intros [= H]. by apply IH. Qed.

Lemma append_x_differs (p : string) : (p ++ "x")%string ≠ p.
Proof.
  intros H. apply (f_equal String.length) in H.
  rewrite length_append in H. simpl in H. lia.
Qed.

Lemma append_x_nonempty (p : string) : (p ++ "x")%string ≠ "".
Proof. destruct p; discriminate. Qed.

#[export] Instance sample_hash_contract : HashContract Sample.platform.
Proof.
  split; simpl; unfold Sample.toy_hash, Sample.toy_check.
  - intros _ p _. by eexists.
  - intros _ p h [= <-]. rewrite String.eqb_refl. by destruct p.
  - intros _ p h q [= <-] Hq.
    replace (String.eqb ("toy$" ++ p) ("toy$" ++ q)) with false; [by destruct p|].
    symmetry. apply String.eqb_neq. intros H. by apply append_cancel_l in H.
Defined.

(** C5: for every non-empty password [p], hashing then verifying [p]
    answers true, and verifying [p ++ "x"] against the same hash answers
    false (for a hashing library that meets [HashContract]). *)
Theorem verify_hash_roundtrip `{P : Platform} (HC : HashContract P)
    (salt p : string) (w : World) :
  p ≠ "" ->
  ∃ h, hash_password salt (Some p) w = (Ok h, w)
       ∧ (∀ w', verify_password (Some h) (Some p) w' = (Ok true, w'))
       ∧ (∀ w', verify_password (Some h) (Some (p ++ "x")%string) w' = (Ok false, w')).
Proof.
  intros Hp. destruct (hash_produced salt p Hp) as (h & Hg & Hh).
  exists h. split; [by apply hash_password_ok|]. split; intros w'.
  - apply verify_password_checked; [done..|]. by eapply check_accepts.
  - apply verify_password_checked; [done|apply append_x_nonempty|].
    eapply check_rejects; [done|apply append_x_differs].
Qed.

Lemma verify_hash_roundtrip_witness :
  ∃ h, hash_password (P := Sample.platform) "salt" (Some "MySecurePassword123!") world0
         = (Ok h, world0)
       ∧ (∀ w', verify_password (P := Sample.platform) (Some h)
                  (Some "MySecurePassword123!") w' = (Ok true, w'))
       ∧ (∀ w', verify_password (P := Sample.platform) (Some h)
                  (Some "MySecurePassword123!x") w' = (Ok false, w')).
Proof.
  apply (verify_hash_roundtrip sample_hash_contract "salt" "MySecurePassword123!" world0).
  discriminate.
Defined.

(** C9: [hash_password] raises the empty-password error on [None] and on
    the empty string; [verify_password] answers false, without raising,
    when the hash or the password is [None] or empty and when the check
    itself raises; it never raises. *)
Theorem credential_guards `{P : Platform} :
  (∀ salt pw w, pw = None ∨ pw = Some "" ->
     hash_password salt pw w = (Raise (ValueError "Password cannot be empty or None"), w))
  ∧ (∀ h p w, h = None ∨ h = Some "" ∨ p = None ∨ p = Some "" ->
       verify_password h p w = (Ok false, w))
  ∧ (∀ h p w e, check_password_hash h p = Raise e ->
       fst (verify_password (Some h) (Some p) w) = Ok false)
  ∧ (∀ h p w, ∃ b, fst (verify_password h p w) = Ok b).
Proof.
  split; [|split; [|split]].
  - intros salt pw w Hpw. destruct Hpw as [Hpw|Hpw]; subst pw;
      [apply hash_password_None|apply hash_password_empty].
  - intros. by apply verify_password_missing.
  - intros. by eapply verify_password_internal_failure.
  - intros. apply verify_password_total.
Qed.

Lemma credential_guards_witness :
  fst (hash_password (P := Sample.platform) "salt" (Some "") world0)
    = Raise (ValueError "Password cannot be empty or None")
  ∧ fst (hash_password (P := Sample.platform) "salt" None world0)
    = Raise (ValueError "Password cannot be empty or None")
  ∧ fst (verify_password (P := Sample.platform) None (Some "somepassword") world0) = Ok false
  ∧ fst (verify_password (P := Sample.platform) (Some "") (Some "somepassword") world0) = Ok false
  ∧ fst (verify_password (P := Sample.platform) (Some "toy$pw") None world0) = Ok false
  ∧ fst (verify_password (P := Sample.platform) (Some "toy$pw") (Some "") world0) = Ok false
  ∧ fst (verify_password (P := Sample.platform) (Some "md5$pw") (Some "pw") world0) = Ok false.
Proof.
  destruct (credential_guards (P := Sample.platform)) as (Hh & Hv & He & _).
  repeat apply conj.
  - rewrite Hh; [done|by right].
  - rewrite Hh; [done|by left].
  - rewrite Hv; [done|by left].
  - rewrite Hv; [done|by right; left].
  - rewrite Hv; [done|by right; right; left].
  - rewrite Hv; [done|by right; right; right].
  - by apply (He _ _ _ (ValueError "Invalid hash method.")).
Defined.

(** ** Login *)

#[local] Arguments verify_password : simpl never.
#[local] Arguments hash_password : simpl never.
#[local] Arguments allowed_file : simpl never.
#[local] Arguments strftime_stamp : simpl never.
#[local] Arguments strip : simpl never.
#[local] Arguments date_of : simpl never.

(** Unfolds the monad's plumbing, leaving the library calls in place. *)
Ltac run_M :=
  unfold query_student, query_teacher, select_achievements, logger, emit, get_db,
    get_session, put_db, session_set, file_save, try_except, lift, raise;
  unfold mbind, M_bind, mret, M_ret; simpl.

Section Login.
Context `{P : Platform}.

Lemma student_login_failure req w :
  method req = "POST" ->
  student_not_found req w ∨ student_wrong_password req w ->
  fst (student req w) = Ok (invalid_credentials "student.html")
  ∧ session (snd (student req w)) = session w
  ∧ db (snd (student req w)) = db w.
Proof.
  intros Hm Hfail. unfold student. rewrite Hm. run_M.
  destruct Hfail as [Hnone|(so & Hsome & Hv)].
  - red in Hnone. rewrite Hnone. done.
  - rewrite Hsome.
    match goal with |- context [verify_password ?h ?p ?w1] =>
      pose proof (verify_password_world h p w1 w) as Hw;
      pose proof (verify_password_frame h p w1) as Hf;
      destruct (verify_password h p w1) as [r w'] end.
    simpl in *. rewrite Hv in Hw. subst r. simpl. tauto.
Qed.

Lemma teacher_login_failure req w :
  method req = "POST" ->
  teacher_not_found req w ∨ teacher_wrong_password req w ->
  fst (teacher req w) = Ok (invalid_credentials "teacher.html")
  ∧ session (snd (teacher req w)) = session w
  ∧ db (snd (teacher req w)) = db w.
Proof.
  intros Hm Hfail. unfold teacher. rewrite Hm. run_M.
  destruct Hfail as [Hnone|(to & Hsome & Hv)].
  - red in Hnone. rewrite Hnone. done.
  - rewrite Hsome.
    match goal with |- context [verify_password ?h ?p ?w1] =>
      pose proof (verify_password_world h p w1 w) as Hw;
      pose proof (verify_password_frame h p w1) as Hf;
      destruct (verify_password h p w1) as [r w'] end.
    simpl in *. rewrite Hv in Hw. subst r. simpl. tauto.
Qed.

End Login.

(** C6: a failed login, student or teacher, renders the same page with the
    same generic message whether the identifier is unknown or the password
    does not verify; the session is left as it was. *)
Theorem login_failure_uniform `{P : Platform} :
  (∀ req1 w1 req2 w2,
     method req1 = "POST" -> method req2 = "POST" ->
     student_not_found req1 w1 -> student_wrong_password req2 w2 ->
     fst (student req1 w1) = fst (student req2 w2)
     ∧ fst (student req1 w1) = Ok (invalid_credentials "student.html")
     ∧ session (snd (student req1 w1)) = session w1
     ∧ session (snd (student req2 w2)) = session w2)
  ∧ (∀ req1 w1 req2 w2,
       method req1 = "POST" -> method req2 = "POST" ->
       teacher_not_found req1 w1 -> teacher_wrong_password req2 w2 ->
       fst (teacher req1 w1) = fst (teacher req2 w2)
       ∧ fst (teacher req1 w1) = Ok (invalid_credentials "teacher.html")
       ∧ session (snd (teacher req1 w1)) = session w1
       ∧ session (snd (teacher req2 w2)) = session w2).
Proof.
  split; intros req1 w1 req2 w2 Hm1 Hm2 H1 H2.
  - destruct (student_login_failure req1 w1 Hm1 (or_introl H1)) as (R1 & S1 & _).
    destruct (student_login_failure req2 w2 Hm2 (or_intror H2)) as (R2 & S2 & _).
    rewrite R1, R2. done.
  - destruct (teacher_login_failure req1 w1 Hm1 (or_introl H1)) as (R1 & S1 & _).
    destruct (teacher_login_failure req2 w2 Hm2 (or_intror H2)) as (R2 & S2 & _).
    rewrite R1, R2. done.
Qed.

Lemma login_failure_uniform_witness :
  let unknown := post [("sname", "S9"); ("password", "secret")] in
  let wrong := post [("sname", "S1"); ("password", "Secret")] in
  let unknown_t := post [("tname", "T9"); ("password", "chalk")] in
  let wrong_t := post [("tname", "T1"); ("password", "")] in
  (fst (student (P := Sample.platform) unknown school)
     = fst (student (P := Sample.platform) wrong school)
   ∧ fst (student (P := Sample.platform) unknown school)
     = Ok (invalid_credentials "student.html")
   ∧ session (snd (student (P := Sample.platform) unknown school)) = session school
   ∧ session (snd (student (P := Sample.platform) wrong school)) = session school)
  ∧ (fst (teacher (P := Sample.platform) unknown_t school)
       = fst (teacher (P := Sample.platform) wrong_t school)
     ∧ fst (teacher (P := Sample.platform) unknown_t school)
       = Ok (invalid_credentials "teacher.html")
     ∧ session (snd (teacher (P := Sample.platform) unknown_t school)) = session school
     ∧ session (snd (teacher (P := Sample.platform) wrong_t school)) = session school).
Proof.
  intros unknown wrong unknown_t wrong_t.
  destruct (login_failure_uniform (P := Sample.platform)) as [Hs Ht].
  apply conj.
  - apply Hs; [reflexivity|reflexivity|reflexivity|].
    exists alice. apply conj; reflexivity.
  - apply Ht; [reflexivity|reflexivity|reflexivity|].
    exists mr_t. apply conj; reflexivity.
Defined.

(** ** Achievement submission *)

#[local] Arguments new_achievement : simpl never.
#[local] Arguments not_null : simpl never.
#[local] Arguments fits_integer : simpl never.
#[local] Arguments parse_team_size : simpl never.
#[local] Arguments store_certificate : simpl never.
#[local] Arguments record_achievement : simpl never.

Section Submission.
Context `{P : Platform}.

Lemma submit_without_teacher_session req w :
  active_teacher_session (session w) = false ->
  submit_achievements req w = (Ok (redirect "teacher" []), w).
Proof.
  unfold active_teacher_session, submit_achievements. intros H. run_M.
  destruct (truthy (sget (session w) "logged_in")),
    (truthy (sget (session w) "teacher_id")); done.
Qed.

(** After the guard and the student lookup, the handler is the certificate
    step followed by [record_achievement]. *)
Lemma submit_known_student req w so :
  active_teacher_session (session w) = true -> method req = "POST" ->
  first_student (db w) (form req !! "student_id") = Some so ->
  submit_achievements req w =
    (cert ← store_certificate req;
     match cert with
     | inr early => mret early
     | inl path =>
         record_achievement req (form req !! "student_id") (student_name so)
           (sget (session w) "teacher_id") path
     end) (logged w [EvSelect "student"]).
Proof.
  unfold active_teacher_session, submit_achievements. intros H Hm Hso. run_M.
  apply andb_prop in H as [-> ->]. simpl. rewrite Hm. simpl. now rewrite Hso.
Qed.

Lemma store_certificate_absent req w :
  files req !! "certificate" = None
  ∨ (∃ f, files req !! "certificate" = Some f ∧ filename f = "") ->
  store_certificate req w = (Ok (inl None), w).
Proof.
  unfold store_certificate. intros [->|(f & -> & ->)]; done.
Qed.


Lemma file_save_fits name content w :
  (String.length name <= NAME_MAX)%nat ->
  file_save name content w = (Ok tt, saved w name content).
Proof.
  intros H. unfold file_save. destruct (Nat.ltb_spec NAME_MAX (String.length name)); [lia|done].
Qed.


Lemma store_certificate_saved req w f :
  files req !! "certificate" = Some f -> filename f ≠ "" ->
  allowed_file (filename f) = true ->
  (String.length (stored_name req f) <= NAME_MAX)%nat ->
  let name := (strftime_stamp (now req) ++ "_" ++ secure_filename (filename f))%string in
  store_certificate req w = (Ok (inl (Some ("uploads/" ++ name)%string)),
                             saved w name (content f)).
Proof.
  unfold store_certificate, nonempty, stored_name. intros -> Hn -> Hlen.
  destruct (String.eqb_spec (filename f) ""); [done|].
  cbv beta iota zeta delta [negb mbind M_bind]. now rewrite file_save_fits.
Qed.


(** [parse_team_size] reads nothing and writes nothing. *)
Lemma parse_team_size_world raw w : snd (parse_team_size raw w) = w.
Proof.
  unfold parse_team_size. destruct raw as [raw|]; [|done].
  destruct (_ && _); [|done]. run_M. now destruct (py_int raw).
Qed.

Lemma parse_team_size_blank raw w :
  raw = None ∨ (∃ s, raw = Some s ∧ strip s = "") ->
  parse_team_size raw w = (Ok None, w).
Proof.
  unfold parse_team_size. intros [->|(s & -> & Hs)]; [done|].
  rewrite Hs. simpl. now rewrite andb_false_r.
Qed.

Lemma parse_team_size_int raw n w :
  strip raw ≠ "" -> py_int raw = Ok n ->
  parse_team_size (Some raw) w = (Ok (Some n), w).
Proof.
  unfold parse_team_size, nonempty. intros Hs Hn.
  destruct (String.eqb_spec (strip raw) ""); [done|].
  destruct (String.eqb_spec raw "") as [->|]; [done|].
  run_M. now rewrite Hn.
Qed.

Lemma parse_team_size_raises raw e w :
  strip raw ≠ "" -> py_int raw = Raise e ->
  parse_team_size (Some raw) w = (Raise e, w).
Proof.
  unfold parse_team_size, nonempty. intros Hs Hn.
  destruct (String.eqb_spec (strip raw) ""); [done|].
  destruct (String.eqb_spec raw "") as [->|]; [done|].
  run_M. now rewrite Hn.
Qed.

Lemma certificate_path_new req sid tid d path ts i c :
  certificate_path (new_achievement req sid tid d path ts i c) = path.
Proof. reflexivity. Qed.

Lemma team_size_new req sid tid d path ts i c :
  team_size (new_achievement req sid tid d path ts i c) = ts.
Proof. reflexivity. Qed.

(** What [add_commit] leaves behind: the row appended, or nothing. *)
Lemma add_commit_effect obj stamp w :
  let out := add_commit obj stamp w in
  session (snd out) = session w ∧ uploads (snd out) = uploads w
  ∧ students (db (snd out)) = students (db w)
  ∧ ((fst out = Ok tt
      ∧ achievements (db (snd out)) = (achievements (db w) ++ [obj (next_id (db w)) stamp])%list)
     ∨ ((∃ e, fst out = Raise e) ∧ db (snd out) = db w)).
Proof.
  unfold add_commit. run_M.
  destruct (fits_integer (team_size (obj (next_id (db w)) stamp))); simpl; [|eauto 10].
  destruct (not_null (obj (next_id (db w)) stamp)); simpl; eauto 10.
Qed.

(** [record_achievement] never touches the session or the upload folder,
    and at most appends one row, which carries the path it was given. *)
Lemma record_achievement_frame req sid name tid path w :
  let out := record_achievement req sid name tid path w in
  session (snd out) = session w ∧ uploads (snd out) = uploads w
  ∧ students (db (snd out)) = students (db w)
  ∧ (achievements (db (snd out)) = achievements (db w)
     ∨ ∃ a, achievements (db (snd out)) = (achievements (db w) ++ [a])%list
            ∧ certificate_path a = path).
Proof.
  unfold record_achievement.
  unfold mbind, M_bind.
  pose proof (parse_team_size_world (form req !! "team_size") w) as Hw.
  destruct (parse_team_size (form req !! "team_size") w) as [[ts|e] w']; simpl in Hw;
    subst w'; [|simpl; eauto].
  destruct (form req !! "achievement_date") as [date_str|]; [|simpl; eauto].
  destruct (negb (nonempty date_str)); [simpl; eauto|].
  destruct (strptime_Ymd date_str) as [d|[m|m|m|m|m]]; try (simpl; eauto; fail).
  unfold try_except.
  match goal with |- context [add_commit ?o ?s w] =>
    pose proof (add_commit_effect o s w) as (Hs & Hu & Hst & Hrows);
    destruct (add_commit o s w) as [[[]|e] w'] end; simpl in *.
  - destruct Hrows as [[_ Hrows]|[[e He] _]]; [|done].
    repeat apply conj; try done. right. eexists. split; [done|apply certificate_path_new].
  - destruct Hrows as [[He _]|[_ Hdb]]; [done|]. rewrite Hdb. run_M. eauto.
Qed.


Lemma record_achievement_bad_date req sid name tid path w ts date_str msg :
  parse_team_size (form req !! "team_size") w = (Ok ts, w) ->
  form req !! "achievement_date" = Some date_str -> date_str ≠ "" ->
  strptime_Ymd date_str = Raise (ValueError msg) ->
  record_achievement req sid name tid path w = (Ok date_format_page, w).
Proof.
  intros Hts Hd Hne Hp. unfold record_achievement.
  unfold mbind, M_bind. rewrite Hts, Hd. unfold nonempty.
  destruct (String.eqb_spec date_str ""); [done|]. simpl. now rewrite Hp.
Qed.

Lemma record_achievement_team_size_raises req sid name tid path w raw e :
  form req !! "team_size" = Some raw -> strip raw ≠ "" -> py_int raw = Raise e ->
  record_achievement req sid name tid path w = (Raise e, w).
Proof.
  intros Hraw Hs Hi. unfold record_achievement.
  unfold mbind, M_bind.
  rewrite Hraw. now rewrite (parse_team_size_raises raw e w Hs Hi).
Qed.

Lemma submit_not_post req w :
  active_teacher_session (session w) = true -> method req ≠ "POST" ->
  submit_achievements req w =
    (Ok (redirect "teacher-dashboard" [("success", "Achievement submitted successfully!")]), w).
Proof.
  unfold active_teacher_session, submit_achievements. intros H Hm. run_M.
  apply andb_prop in H as [-> ->]. simpl.
  destruct (String.eqb_spec (method req) "POST"); done.
Qed.

Lemma submit_student_missing req w :
  active_teacher_session (session w) = true -> method req = "POST" ->
  first_student (db w) (form req !! "student_id") = None ->
  submit_achievements req w = (Ok unknown_student_page, logged w [EvSelect "student"]).
Proof.
  unfold active_teacher_session, submit_achievements. intros H Hm Hso. run_M.
  apply andb_prop in H as [-> ->]. simpl. rewrite Hm. simpl. now rewrite Hso.
Qed.

Lemma team_size_readable_parses req w :
  team_size_readable req ->
  ∃ ts, parse_team_size (form req !! "team_size") w = (Ok ts, w).
Proof.
  unfold team_size_readable. destruct (form req !! "team_size") as [raw|] eqn:E.
  - destruct (decide (strip raw = "")) as [Hs|Hs].
    + intros _. exists None. apply parse_team_size_blank. eauto.
    + intros [?|[n Hn]]; [done|]. exists (Some n). by apply parse_team_size_int.
  - intros _. exists None. apply parse_team_size_blank. eauto.
Qed.

End Submission.

(** *** What gets recorded *)

Section Recording.
Context `{P : Platform}.

Lemma add_commit_result obj stamp w :
  add_commit obj stamp w =
    if negb (fits_integer (team_size (obj (next_id (db w)) stamp)))
    then (Raise (OverflowError "Python int too large to convert to SQLite INTEGER"),
          logged w [EvInsert "achievements"])
    else if not_null (obj (next_id (db w)) stamp)
    then (Ok tt,
          {| session := session w;
             db := {| students := students (db w); teachers := teachers (db w);
                      achievements := achievements (db w) ++ [obj (next_id (db w)) stamp];
                      next_id := next_id (db w) + 1 |};
             uploads := uploads w;
             trace := trace w ++ [EvInsert "achievements"; EvCommit] |})
    else (Raise (IntegrityError "NOT NULL constraint failed"),
          logged w [EvInsert "achievements"]).
Proof.
  unfold add_commit. run_M.
  destruct (fits_integer (team_size (obj (next_id (db w)) stamp))); simpl; [|done].
  destruct (not_null (obj (next_id (db w)) stamp)); simpl; [|done].
  now rewrite <- app_assoc.
Qed.

Lemma team_size_is_parses req ts w :
  team_size_is req ts -> parse_team_size (form req !! "team_size") w = (Ok ts, w).
Proof.
  unfold team_size_is. destruct (form req !! "team_size") as [raw|].
  - intros [[Hs ->]|(Hs & n & Hn & ->)].
    + apply parse_team_size_blank. eauto.
    + by apply parse_team_size_int.
  - intros ->. apply parse_team_size_blank. eauto.
Qed.

(** [record_achievement] once the team size and the date have parsed: the
    row goes in if the team size fits the engine's integers and the NOT
    NULL columns are filled, and the generic error is shown after a
    rollback if not. *)
Lemma record_achievement_commit req sid name tid path w ts date_str d :
  team_size_is req ts ->
  form req !! "achievement_date" = Some date_str -> date_str ≠ "" ->
  strptime_Ymd date_str = Ok d ->
  let row := new_achievement req sid tid d path ts (next_id (db w)) (utcnow req) in
  record_achievement req sid name tid path w =
    if fits_integer ts && not_null row
    then (Ok (success_page name),
          {| session := session w;
             db := {| students := students (db w); teachers := teachers (db w);
                      achievements := achievements (db w) ++ [row];
                      next_id := next_id (db w) + 1 |};
             uploads := uploads w;
             trace := trace w ++ [EvInsert "achievements"; EvCommit] |})
    else (Ok generic_error_page,
          logged w [EvInsert "achievements"; EvRollback;
                    EvLog "error" "Error submitting achievement"]).
Proof.
  intros Hts Hd Hne Hp row. unfold record_achievement. unfold mbind, M_bind.
  rewrite (team_size_is_parses req ts w Hts), Hd. unfold nonempty.
  destruct (String.eqb_spec date_str ""); [done|]. simpl. rewrite Hp.
  unfold try_except. rewrite add_commit_result. fold row.
  change (team_size row) with ts.
  destruct (fits_integer ts); simpl.
  - destruct (not_null row); [done|].
    unfold logged. run_M. now rewrite <- !app_assoc.
  - unfold logged. run_M. now rewrite <- !app_assoc.
Qed.

Lemma store_certificate_acceptable req w :
  certificate_acceptable req ->
  store_certificate req w
  = (Ok (inl (recorded_certificate_path req)),
     match recorded_certificate_path req with
     | Some _ =>
         {| session := session w; db := db w; uploads := uploads_after_certificate req w;
            trace := trace w ++
                     match files req !! "certificate" with
                     | Some f => [EvSave (strftime_stamp (now req) ++ "_"
                                          ++ secure_filename (filename f))%string]
                     | None => []
                     end |}
     | None => w
     end).
Proof.
  unfold certificate_acceptable, recorded_certificate_path, uploads_after_certificate.
  destruct (files req !! "certificate") as [f|] eqn:Hf.
  - unfold nonempty. destruct (String.eqb_spec (filename f) "") as [He|He]; simpl.
    + intros _. apply store_certificate_absent. eauto.
    + intros [?|[Hok Hlen]]; [done|]. by rewrite (store_certificate_saved req w f).
  - intros _. apply store_certificate_absent. eauto.
Qed.

Lemma not_null_new req sid tid d path ts i c :
  not_null (new_achievement req sid tid d path ts i c) = true
  <-> is_Some sid ∧ is_Some (as_text tid) ∧ required_fields_given req.
Proof.
  unfold not_null, new_achievement, required_fields_given. simpl.
  rewrite !andb_true_iff, !bool_decide_eq_true. tauto.
Qed.

(** Every run of [record_achievement]: the database is as before, or one
    row built from the request has been appended and the success page
    shown. *)
Lemma record_achievement_row req sid name tid path w :
  let out := record_achievement req sid name tid path w in
  session (snd out) = session w ∧ uploads (snd out) = uploads w
  ∧ (db (snd out) = db w
     ∨ ∃ d ts,
         let row := new_achievement req sid tid d path ts (next_id (db w)) (utcnow req) in
         not_null row = true ∧ fst out = Ok (success_page name)
         ∧ db (snd out) = {| students := students (db w); teachers := teachers (db w);
                             achievements := achievements (db w) ++ [row];
                             next_id := next_id (db w) + 1 |}).
Proof.
  intros out. subst out. unfold record_achievement. unfold mbind, M_bind.
  pose proof (parse_team_size_world (form req !! "team_size") w) as Hw.
  destruct (parse_team_size (form req !! "team_size") w) as [[ts|e] w']; simpl in Hw;
    subst w'; [|simpl; eauto].
  destruct (form req !! "achievement_date") as [date_str|]; [|simpl; eauto].
  destruct (negb (nonempty date_str)); [simpl; eauto|].
  destruct (strptime_Ymd date_str) as [d|[m|m|m|m|m]]; try (simpl; eauto; fail).
  unfold try_except. rewrite add_commit_result.
  destruct (fits_integer _); simpl; [|run_M; eauto].
  destruct (not_null _) eqn:Hnn; simpl.
  - repeat apply conj; try done. right. by exists d, ts.
  - run_M. eauto.
Qed.

(** A complete submission: the success page, and the database with the one
    row appended. *)
Lemma submit_records req w so T ts date_str d :
  truthy (sget (session w) "logged_in") = true ->
  session w !! "teacher_id" = Some (PyStr T) -> T ≠ "" ->
  method req = "POST" ->
  first_student (db w) (form req !! "student_id") = Some so ->
  certificate_acceptable req -> team_size_is req ts -> fits_integer ts = true ->
  form req !! "achievement_date" = Some date_str -> date_str ≠ "" ->
  strptime_Ymd date_str = Ok d ->
  required_fields_given req ->
  let out := submit_achievements req w in
  let row := new_achievement req (form req !! "student_id") (PyStr T) d
               (recorded_certificate_path req) ts (next_id (db w)) (utcnow req) in
  fst out = Ok (success_page (student_name so))
  ∧ achievements (db (snd out)) = (achievements (db w) ++ [row])%list
  ∧ next_id (db (snd out)) = next_id (db w) + 1
  ∧ students (db (snd out)) = students (db w)
  ∧ teachers (db (snd out)) = teachers (db w)
  ∧ session (snd out) = session w
  ∧ uploads (snd out) = uploads_after_certificate req w.
Proof.
  intros Hl Ht HT Hm Hso Hcert Hts Hfit Hd Hne Hp Hreq out row. subst out.
  assert (sget (session w) "teacher_id" = PyStr T) as Htid by (unfold sget; now rewrite Ht).
  assert (active_teacher_session (session w) = true) as Ha.
  { unfold active_teacher_session. rewrite Hl, Htid. simpl.
    by destruct (String.eqb_spec T ""). }
  rewrite (submit_known_student req w so) by done. unfold mbind, M_bind.
  rewrite store_certificate_acceptable by done. rewrite Htid.
  assert (is_Some (form req !! "student_id")) as Hsid.
  { destruct (form req !! "student_id"); [by eexists|done]. }
  assert (∀ path i c, not_null (new_achievement req (form req !! "student_id") (PyStr T)
                                  d path ts i c) = true) as Hnn.
  { intros. apply not_null_new. split; [done|]. split; [by eexists|done]. }
  match goal with |- context [record_achievement _ _ _ _ _ ?w1] =>
    rewrite (record_achievement_commit req _ _ _ _ w1 ts date_str d) by done end.
  rewrite Hfit, Hnn. subst row.
  assert (uploads_after_certificate req (logged w [EvSelect "student"])
          = uploads_after_certificate req w) as Hup by done.
  destruct (recorded_certificate_path req) as [path|] eqn:Hpath; simpl;
    repeat apply conj; try done.
  unfold uploads_after_certificate, recorded_certificate_path in *.
  destruct (files req !! "certificate") as [f|]; [|done]. by destruct (nonempty _).
Qed.

End Recording.

(** C8: a submission whose student identifier resolves to no Student is
    answered with the student-does-not-exist form; the only effect is the
    lookup itself, so no Achievement is created and the store is unchanged. *)
Theorem submit_unknown_student `{P : Platform} (req : Request) (w : World) :
  active_teacher_session (session w) = true -> method req = "POST" ->
  first_student (db w) (form req !! "student_id") = None ->
  let out := submit_achievements req w in
  fst out = Ok unknown_student_page
  ∧ snd out = logged w [EvSelect "student"]
  ∧ db (snd out) = db w ∧ uploads (snd out) = uploads w.
Proof.
  intros Ha Hm Hs out. subst out. by rewrite submit_student_missing.
Qed.

Lemma submit_unknown_student_witness :
  let req := post [("student_id", "S404"); ("achievement_type", "hackathon");
                   ("event_name", "Code Jam"); ("achievement_date", "2024-03-01");
                   ("organizer", "ACM"); ("position", "1st")] in
  let out := submit_achievements (P := Sample.platform) req teacher_logged_in in
  fst out = Ok unknown_student_page
  ∧ snd out = logged teacher_logged_in [EvSelect "student"]
  ∧ db (snd out) = db teacher_logged_in ∧ uploads (snd out) = uploads teacher_logged_in.
Proof.
  intros req. apply (submit_unknown_student (P := Sample.platform) req teacher_logged_in);
    reflexivity.
Defined.

(** C10: a "certificate" part whose filename is empty is ignored: the
    handler behaves exactly as on the same request without that part and
    stores no file; a complete submission (teacher session for [T],
    existing student, team size blank or a storable integer, a date that
    parses, the required fields given) gets the success page and its row
    is appended with no certificate path; and whatever the request, a row
    the handler creates has no certificate path. *)
Theorem submit_empty_filename `{P : Platform} (req : Request) (w : World)
    (f : FileStorage) :
  files req !! "certificate" = Some f -> filename f = "" ->
  let out := submit_achievements req w in
  out = submit_achievements (without_certificate req) w
  ∧ uploads (snd out) = uploads w
  ∧ (∀ so T ts date_str d,
       truthy (sget (session w) "logged_in") = true ->
       session w !! "teacher_id" = Some (PyStr T) -> T ≠ "" ->
       method req = "POST" ->
       first_student (db w) (form req !! "student_id") = Some so ->
       team_size_is req ts -> fits_integer ts = true ->
       form req !! "achievement_date" = Some date_str -> date_str ≠ "" ->
       strptime_Ymd date_str = Ok d ->
       required_fields_given req ->
       fst out = Ok (success_page (student_name so))
       ∧ achievements (db (snd out))
         = (achievements (db w)
            ++ [new_achievement req (form req !! "student_id") (PyStr T) d None ts
                  (next_id (db w)) (utcnow req)])%list)
  ∧ (achievements (db (snd out)) = achievements (db w)
     ∨ ∃ a, achievements (db (snd out)) = (achievements (db w) ++ [a])%list
            ∧ certificate_path a = None).
Proof.
  intros Hf Hname out. subst out.
  assert (certificate_acceptable req) as Hcert.
  { unfold certificate_acceptable. rewrite Hf. by left. }
  assert (recorded_certificate_path req = None) as Hpath.
  { unfold recorded_certificate_path. now rewrite Hf, Hname. }
  assert (∀ so T ts date_str d,
       truthy (sget (session w) "logged_in") = true ->
       session w !! "teacher_id" = Some (PyStr T) -> T ≠ "" ->
       method req = "POST" ->
       first_student (db w) (form req !! "student_id") = Some so ->
       team_size_is req ts -> fits_integer ts = true ->
       form req !! "achievement_date" = Some date_str -> date_str ≠ "" ->
       strptime_Ymd date_str = Ok d ->
       required_fields_given req ->
       fst (submit_achievements req w) = Ok (success_page (student_name so))
       ∧ achievements (db (snd (submit_achievements req w)))
         = (achievements (db w)
            ++ [new_achievement req (form req !! "student_id") (PyStr T) d None ts
                  (next_id (db w)) (utcnow req)])%list) as Hcomplete.
  { intros so T ts date_str d Hl Ht HT Hm Hso Hts Hfit Hd Hne Hp Hreq.
    destruct (submit_records req w so T ts date_str d) as (Hpage & Hrows & _); try done.
    now rewrite Hpath in Hrows. }
  destruct (active_teacher_session (session w)) eqn:Ha;
    [|rewrite !submit_without_teacher_session in *; auto].
  destruct (decide (method req = "POST")) as [Hm|Hm];
    [|rewrite !submit_not_post in *; auto].
  destruct (first_student (db w) (form req !! "student_id")) as [so|] eqn:Hso;
    [|rewrite !submit_student_missing in *; auto].
  split; [|split; [|split; [exact Hcomplete|]]]; clear Hcomplete;
  rewrite ?(submit_known_student req w so),
          ?(submit_known_student (without_certificate req) w so) by done;
  unfold mbind, M_bind;
  rewrite ?(store_certificate_absent req) by eauto;
  rewrite ?(store_certificate_absent (without_certificate req))
    by (left; apply lookup_delete_eq);
  try reflexivity;
  pose proof (record_achievement_frame req (form req !! "student_id") (student_name so)
                (sget (session w) "teacher_id") None (logged w [EvSelect "student"]))
    as (_ & Hu & _ & Hrows);
  simpl in *; eauto.
Qed.

Lemma submit_empty_filename_witness :
  let req := request "POST"
               [("student_id", "S1"); ("achievement_type", "hackathon");
                ("event_name", "Code Jam"); ("achievement_date", "2024-03-01");
                ("organizer", "ACM"); ("position", "1st")]
               [("certificate", {| filename := ""; content := "" |})] in
  let out := submit_achievements (P := Sample.platform) req teacher_logged_in in
  let row := new_achievement req (Some "S1") (PyStr "T1") 738946 None None
               (next_id (db teacher_logged_in)) (utcnow req) in
  out = submit_achievements (P := Sample.platform) (without_certificate req) teacher_logged_in
  ∧ uploads (snd out) = uploads teacher_logged_in
  ∧ fst out = Ok (success_page (student_name alice))
  ∧ achievements (db (snd out)) = (achievements (db teacher_logged_in) ++ [row])%list
  ∧ certificate_path row = None.
Proof.
  intros req out row.
  destruct (submit_empty_filename (P := Sample.platform) req teacher_logged_in
              {| filename := ""; content := "" |} eq_refl eq_refl)
    as (Hsame & Hup & Hcomplete & _).
  destruct (Hcomplete alice "T1" None "2024-03-01" 738946)
    as (Hpage & Hrows); try reflexivity; try discriminate.
  - repeat split; by eexists.
  - repeat apply conj; try assumption. reflexivity.
Defined.

(** C2, as stated, fails: with an acceptable certificate attached, the file
    has been written to the upload folder by the time the date is found
    not to parse. *)
Lemma bad_date_keeps_uploaded_file :
  let req := request "POST"
               [("student_id", "S1"); ("achievement_type", "hackathon");
                ("event_name", "Code Jam"); ("achievement_date", "2024-13-40");
                ("organizer", "ACM"); ("position", "1st")]
               [("certificate", {| filename := "cert.pdf"; content := "%PDF-1.7" |})] in
  let out := submit_achievements (P := Sample.platform) req teacher_logged_in in
  fst out = Ok date_format_page
  ∧ achievements (db (snd out)) = []
  ∧ uploads teacher_logged_in !! "20240310120009_cert.pdf" = None
  ∧ uploads (snd out) !! "20240310120009_cert.pdf" = Some "%PDF-1.7"
  ∧ ¬ no_other_action teacher_logged_in (snd out).
Proof.
  intros req out. repeat apply conj; try reflexivity.
  intros [_ Hu]. apply (f_equal (lookup "20240310120009_cert.pdf")) in Hu.
  vm_compute in Hu. discriminate.
Qed.

(** C2 (amended): when the date is present, its parse fails, the certificate
    (if any) is acceptable (allowed extension, stored name within the file
    system's limit) and the team size is blank or an integer, the handler
    answers with the date-format error, and leaves the session and the
    database as they were; the upload folder holds the certificate file,
    saved before the date was looked at, and is otherwise as before. *)
Theorem submit_bad_date `{P : Platform} (req : Request) (w : World) (so : Student)
    (date_str msg : string) :
  active_teacher_session (session w) = true -> method req = "POST" ->
  first_student (db w) (form req !! "student_id") = Some so ->
  certificate_acceptable req -> team_size_readable req ->
  form req !! "achievement_date" = Some date_str -> date_str ≠ "" ->
  strptime_Ymd date_str = Raise (ValueError msg) ->
  let out := submit_achievements req w in
  fst out = Ok date_format_page
  ∧ db (snd out) = db w
  ∧ session (snd out) = session w
  ∧ uploads (snd out) = uploads_after_certificate req w.
Proof.
  intros Ha Hm Hso Hcert Hts Hd Hne Hp out. subst out.
  rewrite (submit_known_student req w so) by done.
  unfold mbind, M_bind, certificate_acceptable, uploads_after_certificate in *.
  destruct (files req !! "certificate") as [f|] eqn:Hf.
  - unfold nonempty. destruct (String.eqb_spec (filename f) "") as [He|He].
    + rewrite (store_certificate_absent req) by eauto.
      destruct (team_size_readable_parses req (logged w [EvSelect "student"]) Hts)
        as [ts Hparse].
      by erewrite record_achievement_bad_date.
    + destruct Hcert as [?|[Hok Hlen]]; [done|].
      rewrite (store_certificate_saved req _ f) by done.
      match goal with |- context [saved ?w0 ?n ?c] =>
        destruct (team_size_readable_parses req (saved w0 n c) Hts) as [ts Hparse] end.
      by erewrite record_achievement_bad_date.
  - rewrite (store_certificate_absent req) by eauto.
    destruct (team_size_readable_parses req (logged w [EvSelect "student"]) Hts)
      as [ts Hparse].
    by erewrite record_achievement_bad_date.
Qed.

Lemma submit_bad_date_witness :
  let req := request "POST"
               [("student_id", "S1"); ("achievement_type", "hackathon");
                ("event_name", "Code Jam"); ("achievement_date", "2024-13-40");
                ("organizer", "ACM"); ("position", "1st"); ("team_size", "4")]
               [("certificate", {| filename := "cert.pdf"; content := "%PDF-1.7" |})] in
  let out := submit_achievements (P := Sample.platform) req teacher_logged_in in
  fst out = Ok date_format_page
  ∧ db (snd out) = db teacher_logged_in
  ∧ session (snd out) = session teacher_logged_in
  ∧ uploads (snd out) = uploads_after_certificate (P := Sample.platform) req teacher_logged_in.
Proof.
  intros req.
  apply (submit_bad_date (P := Sample.platform) req teacher_logged_in alice "2024-13-40"
           "time data '2024-13-40' does not match format '%Y-%m-%d'").
  - reflexivity.
  - reflexivity.
  - reflexivity.
  - right. split; [reflexivity|]. vm_compute. lia.
  - right. exists 4. reflexivity.
  - reflexivity.
  - discriminate.
  - reflexivity.
Defined.

(** The two earlier guards that answer before the date is parsed. *)
Example empty_date_is_required :
  fst (submit_achievements (P := Sample.platform)
         (post [("student_id", "S1"); ("achievement_date", "")]) teacher_logged_in)
  = Ok (submit_form (arg_error "Achievement date is required.")).
Proof. reflexivity. Qed.

Example bad_extension_before_bad_date :
  fst (submit_achievements (P := Sample.platform)
         (request "POST" [("student_id", "S1"); ("achievement_date", "2024-13-40")]
            [("certificate", {| filename := "evil.exe"; content := "MZ" |})])
         teacher_logged_in)
  = Ok invalid_file_type_page.
Proof. reflexivity. Qed.

(** ** Team size *)

(** A team size that [int] refuses makes the handler raise: the parse
    stands outside every [try] of [submit_achievements]. *)
Lemma submit_team_size_raises `{P : Platform} (req : Request) (w : World) (so : Student)
    (raw : string) (e : Exc) :
  active_teacher_session (session w) = true -> method req = "POST" ->
  first_student (db w) (form req !! "student_id") = Some so ->
  files req !! "certificate" = None ->
  form req !! "team_size" = Some raw -> strip raw ≠ "" -> py_int raw = Raise e ->
  submit_achievements req w = (Raise e, logged w [EvSelect "student"]).
Proof.
  intros Ha Hm Hso Hf Hraw Hs Hi.
  rewrite (submit_known_student req w so) by done.
  unfold mbind, M_bind. rewrite (store_certificate_absent req) by eauto.
  by erewrite record_achievement_team_size_raises.
Qed.

(** A blank or absent team size is recorded as [None]. *)
Lemma blank_team_size_is_absent `{P : Platform} (req : Request) (w : World) :
  form req !! "team_size" = None
  ∨ (∃ raw, form req !! "team_size" = Some raw ∧ strip raw = "") ->
  parse_team_size (form req !! "team_size") w = (Ok None, w).
Proof.
  intros [H|(raw & H & Hs)]; rewrite H; apply parse_team_size_blank; eauto.
Qed.

(** C3: at team_size = "abc" the handler does not recover: the
    [ValueError] of [int] leaves [submit_achievements]. *)
Theorem submit_team_size_abc_raises :
  let req := post [("student_id", "S1"); ("achievement_type", "hackathon");
                   ("event_name", "Code Jam"); ("achievement_date", "2024-03-01");
                   ("organizer", "ACM"); ("position", "1st"); ("team_size", "abc")] in
  submit_achievements (P := Sample.platform) req teacher_logged_in
  = (Raise (ValueError "invalid literal for int() with base 10: 'abc'"),
     logged teacher_logged_in [EvSelect "student"]).
Proof.
  intros req.
  apply (submit_team_size_raises (P := Sample.platform) req teacher_logged_in alice "abc");
    first [reflexivity | discriminate].
Qed.

(** ** Upload validation *)

#[local] Arguments in_set : simpl never.
#[local] Arguments digit_char : simpl never.
#[local] Arguments decimal : simpl never.
#[local] Arguments pad2 : simpl never.

Lemma rsplit1_no_sep sep s : contains sep s = false -> rsplit1 sep s = [s].
Proof.
  induction s as [|c s IH]; simpl; [done|].
  destruct (Ascii.eqb c sep); simpl; [done|]. intros H. now rewrite IH.
Qed.

Lemma rsplit1_last sep stem ext :
  contains sep ext = false -> rsplit1 sep (stem ++ String sep ext) = [stem; ext].
Proof.
  intros H. induction stem as [|c stem IH]; simpl.
  - rewrite (rsplit1_no_sep sep ext H). now rewrite Ascii.eqb_refl.
  - now rewrite IH.
Qed.


Lemma contains_append sep pre suf :
  contains sep (pre ++ String sep suf) = true.
Proof.
  induction pre as [|c pre IH]; simpl.
  - now rewrite Ascii.eqb_refl.
  - rewrite IH. apply orb_true_r.
Qed.




(** *** The timestamp prefix *)












(** A file that is not a certificate: the form comes back with the
    invalid-file-type message and nothing but the student lookup has
    happened. *)
Example evil_exe_rejected :
  let req := request "POST"
               [("student_id", "S1"); ("achievement_type", "hackathon");
                ("event_name", "Code Jam"); ("achievement_date", "2024-03-01");
                ("organizer", "ACM"); ("position", "1st")]
               [("certificate", {| filename := "evil.exe"; content := "MZ" |})] in
  submit_achievements (P := Sample.platform) req teacher_logged_in
  = (Ok invalid_file_type_page, logged teacher_logged_in [EvSelect "student"]).
Proof. reflexivity. Qed.

(** The two file names of the spec's example. *)
Example evil_exe_refused : allowed_file "evil.exe" = false.
Proof. reflexivity. Qed.

Example cert_pdf_accepted : allowed_file "cert.pdf" = true.
Proof. reflexivity. Qed.

(** ** Dashboards and listings *)

Section SampleEngine.
Import Sample.

Lemma insert_desc_perm key a l : Permutation (insert_desc key a l) (a :: l).
Proof.
  induction l as [|b l IH]; simpl; [done|].
  destruct (key b <=? key a); [done|].
  rewrite IH. apply perm_swap.
Qed.

Lemma insert_desc_sorted key a l :
  StronglySorted (fun x y => key y <= key x) l ->
  StronglySorted (fun x y => key y <= key x) (insert_desc key a l).
Proof.
  induction l as [|b l IH]; simpl; intros Hl.
  - repeat constructor.
  - apply StronglySorted_cons in Hl as [Hb Hl].
    destruct (Z.leb_spec (key b) (key a)).
    + apply StronglySorted_cons. split; [|by apply StronglySorted_cons].
      constructor; [done|]. eapply Forall_impl; [done|]. simpl. lia.
    + apply StronglySorted_cons. split; [|by apply IH].
      rewrite (insert_desc_perm key a l). constructor; [lia|done].
Qed.


#[export] Instance sample_order_by : OrderByContract platform.
Proof.
  split; simpl; unfold stable_order_by_desc; intros key l.
  - induction l as [|a l IH]; simpl; [done|].
    rewrite insert_desc_perm. by constructor.
  - induction l as [|a l IH]; simpl; [constructor|]. by apply insert_desc_sorted.
Defined.


(** Rows created at the same instant: the three rows of [three_rows] carry
    one timestamp and are listed in the order of their insertion. *)
Example same_instant_rows_in_insertion_order :
  List.map created_at (achievements (db three_rows))
  = [1710072009000000; 1710072009000000; 1710072009000000]
  ∧ List.map id (take 5 (order_by_desc (Platform := platform) created_at
                           (achievements (db three_rows)))) = [1; 2; 3].
Proof. repeat apply conj; reflexivity. Qed.

End SampleEngine.

Section Dashboard.
Context `{P : Platform}.

Lemma teacher_dashboard_logged_out req w :
  truthy (sget (session w) "logged_in") = false ->
  teacher_dashboard req w = (Ok (redirect "teacher" []), w).
Proof. unfold teacher_dashboard. intros H. run_M. now rewrite H. Qed.

Lemma all_achievements_logged_out req w :
  truthy (sget (session w) "logged_in") = false ->
  all_achievements req w = (Ok (redirect "teacher" []), w).
Proof. unfold all_achievements. intros H. run_M. now rewrite H. Qed.

(** With the logged-in flag set, and whatever the session says about a
    teacher, the dashboard runs its four queries and renders. *)
Lemma teacher_dashboard_logged_in req w :
  truthy (sget (session w) "logged_in") = true ->
  let tid := sget (session w) "teacher_id" in
  let mine := List.filter (by_teacher tid) (achievements (db w)) in
  teacher_dashboard req w =
    (Ok (render_template "teacher_dashboard.html"
           [arg_teacher {| data_id := tid;
                           data_name := sget (session w) "teacher_name";
                           data_dept := sget (session w) "teacher_dept" |};
            arg_stats
              {| total_achievements := length mine;
                 students_managed := count_distinct_students mine;
                 this_week :=
                   length (List.filter
                     (fun a => by_teacher tid a
                               && (minus_days (date_of (now req)) 7 <=? achievement_date a))
                     (achievements (db w))) |};
            arg_recent_entries (take 5 (order_by_desc created_at mine))]),
     logged w dashboard_queries).
Proof.
  unfold teacher_dashboard. intros H. run_M. rewrite H. simpl.
  unfold logged, dashboard_queries. simpl. now rewrite <- !app_assoc.
Qed.

Lemma all_achievements_logged_in req w :
  truthy (sget (session w) "logged_in") = true ->
  all_achievements req w =
    (Ok (render_template "all_achievements.html"
           [arg_achievements
              (order_by_desc achievement_date
                 (List.filter (by_teacher (sget (session w) "teacher_id"))
                    (achievements (db w))))]),
     logged w [EvSelect "achievements"]).
Proof. unfold all_achievements. intros H. run_M. now rewrite H. Qed.

Lemma by_teacher_str T a :
  by_teacher (PyStr T) a = bool_decide (a_teacher_id a = Some T).
Proof.
  unfold by_teacher. destruct (a_teacher_id a) as [s|]; simpl; [|done].
  apply bool_decide_ext. split; congruence.
Qed.

Lemma filter_filter {A} (f g : A -> bool) (l : list A) :
  List.filter (fun a => f a && g a) l = List.filter g (List.filter f l).
Proof.
  induction l as [|a l IH]; simpl; [done|].
  destruct (f a); simpl; [|done]. destruct (g a); now rewrite IH.
Qed.


End Dashboard.

(** C1: a session set up by a student login is not a teacher session, yet
    [teacher_dashboard] and [all_achievements] run their queries and render
    for it: they test the logged-in flag only, where [submit_achievements]
    also asks for a teacher identifier. *)
Theorem teacher_views_render_for_student_session :
  active_teacher_session (session student_logged_in) = false
  ∧ submit_achievements (P := Sample.platform) get student_logged_in
    = (Ok (redirect "teacher" []), student_logged_in)
  ∧ teacher_dashboard (P := Sample.platform) get student_logged_in
    = (Ok (render_template "teacher_dashboard.html"
             [arg_teacher {| data_id := PyNone; data_name := PyNone; data_dept := PyNone |};
              arg_stats {| total_achievements := 0; students_managed := 0; this_week := 0 |};
              arg_recent_entries []]),
       logged student_logged_in dashboard_queries)
  ∧ all_achievements (P := Sample.platform) get student_logged_in
    = (Ok (render_template "all_achievements.html" [arg_achievements []]),
       logged student_logged_in [EvSelect "achievements"]).
Proof.
  repeat apply conj.
  - reflexivity.
  - by apply submit_without_teacher_session.
  - by rewrite teacher_dashboard_logged_in.
  - by rewrite all_achievements_logged_in.
Qed.

(** The part of C1 the code does honour: without the logged-in flag (an
    empty session, a session after logout) both handlers redirect to the
    teacher login and query nothing. *)
Lemma teacher_views_redirect_when_logged_out `{P : Platform} (req : Request) (w : World) :
  truthy (sget (session w) "logged_in") = false ->
  teacher_dashboard req w = (Ok (redirect "teacher" []), w)
  ∧ all_achievements req w = (Ok (redirect "teacher" []), w).
Proof.
  intros H. split; [by apply teacher_dashboard_logged_out|by apply all_achievements_logged_out].
Qed.

Example logout_then_dashboard :
  let w := snd (logout get teacher_logged_in) in
  fst (teacher_dashboard (P := Sample.platform) get w) = Ok (redirect "teacher" []).
Proof. reflexivity. Qed.



Example three_rows_two_students :
  stats_of (fst (teacher_dashboard (P := Sample.platform) get three_rows))
  = Some {| total_achievements := 3; students_managed := 2; this_week := 2 |}.
Proof. reflexivity. Qed.



(** * Further properties *)

(** ** Registration *)

Lemma not_existsb_fmap {A} (f : A -> string) (x : string) (l : list A) :
  existsb (fun r => String.eqb (f r) x) l = false <-> x ∉ (f <$> l).
Proof.
  induction l as [|a l IH]; simpl.
  - split; [intros _; apply not_elem_of_nil|done].
  - rewrite not_elem_of_cons, orb_false_iff, IH, String.eqb_neq.
    split; intros [H1 H2]; split; auto.
Qed.

Lemma find_fresh_app {A} (f : A -> string) (x : string) (l : list A) (a : A) :
  x ∉ (f <$> l) -> f a = x ->
  find (fun r => String.eqb (f r) x) (l ++ [a]) = Some a.
Proof.
  intros Hx Ha. induction l as [|b l IH]; simpl.
  - now rewrite Ha, String.eqb_refl.
  - simpl in Hx. apply not_elem_of_cons in Hx as [Hb Hl].
    destruct (String.eqb_spec (f b) x); [congruence|]. by apply IH.
Qed.

Section Registration.
Context `{P : Platform}.

Lemma hash_or_page_empty template salt pw w :
  pw = None ∨ pw = Some "" ->
  hash_or_page template salt pw w = (Ok (inr (password_empty_page template)), w).
Proof. intros [->| ->]; reflexivity. Qed.

Lemma hash_or_page_hashed template salt p h w :
  p ≠ "" -> generate_password_hash salt p = Ok h ->
  hash_or_page template salt (Some p) w = (Ok (inl h), w).
Proof.
  intros Hp Hg. unfold hash_or_page, try_except, mbind, M_bind.
  now rewrite (hash_password_ok salt p h w Hp Hg).
Qed.

Lemma hash_or_page_failed template salt p e w :
  p ≠ "" -> generate_password_hash salt p = Raise e ->
  ∃ evs, hash_or_page template salt (Some p) w
         = (Ok (inr (hashing_failure_page template e)), logged w evs).
Proof.
  intros Hp Hg. unfold hash_or_page, hash_password.
  destruct (String.eqb_spec p "") as [?|_]; [done|].
  unfold try_except, mbind, M_bind, lift, logger, emit, raise, mret, M_ret.
  rewrite Hg. simpl. destruct e; simpl; eexists; unfold logged; simpl;
    try rewrite <- app_assoc; reflexivity.
Qed.

(** Whatever the password, the hashing step writes at most log records. *)
Lemma hash_or_page_frame template salt pw w :
  ∃ evs, snd (hash_or_page template salt pw w) = logged w evs.
Proof.
  destruct pw as [p|]; [|exists []; unfold logged; rewrite app_nil_r; by destruct w].
  destruct (decide (p = "")) as [->|Hp];
    [exists []; unfold logged; rewrite app_nil_r; by destruct w|].
  destruct (generate_password_hash salt p) as [h|e] eqn:Hg.
  - rewrite (hash_or_page_hashed _ _ _ h) by done.
    exists []. unfold logged. rewrite app_nil_r. by destruct w.
  - destruct (hash_or_page_failed template salt p e w Hp Hg) as [evs ->]. by exists evs.
Qed.

(** What the insertion of a student leaves behind: the row appended under
    a fresh identifier and email, or nothing. *)
Lemma add_commit_student_effect name_ id_ email_ phone_ pw gender_ dept_ w :
  let out := add_commit_student name_ id_ email_ phone_ pw gender_ dept_ w in
  session (snd out) = session w ∧ uploads (snd out) = uploads w
  ∧ teachers (db (snd out)) = teachers (db w)
  ∧ achievements (db (snd out)) = achievements (db w)
  ∧ next_id (db (snd out)) = next_id (db w)
  ∧ ((fst out = Ok tt
      ∧ ∃ n i e, name_ = Some n ∧ id_ = Some i ∧ email_ = Some e
                 ∧ (i ∉ (student_id <$> students (db w)))
                 ∧ (e ∉ (student_email <$> students (db w)))
                 ∧ students (db (snd out))
                   = (students (db w) ++
                      [{| student_name := n; student_id := i; student_email := e;
                          student_phone_number := phone_; student_password := pw;
                          student_gender := gender_; student_dept := dept_ |}])%list)
     ∨ ((∃ e, fst out = Raise e) ∧ db (snd out) = db w)).
Proof.
  unfold add_commit_student.
  unfold mbind, M_bind, emit, get_db, put_db, raise, mret, M_ret. simpl.
  destruct name_ as [n|], id_ as [i|], email_ as [e|]; simpl; try (by eauto 10).
  destruct (existsb _ (students (db w))) eqn:Hi; simpl; [by eauto 10|].
  destruct (existsb (fun r => String.eqb (student_email r) e) (students (db w))) eqn:He;
    simpl; [by eauto 10|].
  apply not_existsb_fmap in Hi, He.
  repeat apply conj; try done. left. split; [done|]. by exists n, i, e.
Qed.

Lemma add_commit_teacher_effect name_ id_ email_ phone_ pw gender_ dept_ w :
  let out := add_commit_teacher name_ id_ email_ phone_ pw gender_ dept_ w in
  session (snd out) = session w ∧ uploads (snd out) = uploads w
  ∧ students (db (snd out)) = students (db w)
  ∧ achievements (db (snd out)) = achievements (db w)
  ∧ next_id (db (snd out)) = next_id (db w)
  ∧ ((fst out = Ok tt
      ∧ ∃ n i e, name_ = Some n ∧ id_ = Some i ∧ email_ = Some e
                 ∧ (i ∉ (teacher_id <$> teachers (db w)))
                 ∧ (e ∉ (teacher_email <$> teachers (db w)))
                 ∧ teachers (db (snd out))
                   = (teachers (db w) ++
                      [{| teacher_name := n; teacher_id := i; teacher_email := e;
                          teacher_phone_number := phone_; teacher_password := pw;
                          teacher_gender := gender_; teacher_dept := dept_ |}])%list)
     ∨ ((∃ e, fst out = Raise e) ∧ db (snd out) = db w)).
Proof.
  unfold add_commit_teacher.
  unfold mbind, M_bind, emit, get_db, put_db, raise, mret, M_ret. simpl.
  destruct name_ as [n|], id_ as [i|], email_ as [e|]; simpl; try (by eauto 10).
  destruct (existsb _ (teachers (db w))) eqn:Hi; simpl; [by eauto 10|].
  destruct (existsb (fun r => String.eqb (teacher_email r) e) (teachers (db w))) eqn:He;
    simpl; [by eauto 10|].
  apply not_existsb_fmap in Hi, He.
  repeat apply conj; try done. left. split; [done|]. by exists n, i, e.
Qed.

#[local] Arguments hash_or_page : simpl never.
#[local] Arguments add_commit_student : simpl never.
#[local] Arguments add_commit_teacher : simpl never.

(** Closes the cases in which a registration handler inserted nothing. *)
Ltac refused := simpl; repeat apply conj; try done; right; split; done.

(** Every run of [student_new]: nothing but the students table and the
    trace can change, and the table changes only by one appended row with a
    fresh identifier and email, on a redirect to the login page. *)
Lemma student_new_effect salt req w :
  let out := student_new salt req w in
  session (snd out) = session w ∧ uploads (snd out) = uploads w
  ∧ teachers (db (snd out)) = teachers (db w)
  ∧ achievements (db (snd out)) = achievements (db w)
  ∧ next_id (db (snd out)) = next_id (db w)
  ∧ ((fst out = Ok (redirect "student" [])
      ∧ ∃ n i e p h,
          form req !! "student_name" = Some n ∧ form req !! "student_id" = Some i
          ∧ form req !! "email" = Some e ∧ form req !! "password" = Some p
          ∧ p ≠ "" ∧ generate_password_hash salt p = Ok h
          ∧ (i ∉ (student_id <$> students (db w)))
          ∧ (e ∉ (student_email <$> students (db w)))
          ∧ students (db (snd out)) = (students (db w) ++ [student_row req n i e h])%list)
     ∨ (fst out ≠ Ok (redirect "student" []) ∧ db (snd out) = db w)).
Proof.
  intros out. subst out. unfold student_new.
  destruct (String.eqb (method req) "POST"); [|refused].
  unfold mbind, M_bind.
  destruct (form req !! "password") as [p|] eqn:Hpw;
    [|rewrite hash_or_page_empty by auto; refused].
  destruct (decide (p = "")) as [->|Hp];
    [rewrite hash_or_page_empty by auto; refused|].
  destruct (generate_password_hash salt p) as [h|e] eqn:Hg.
  - rewrite (hash_or_page_hashed _ _ _ h) by done.
    unfold try_except.
    match goal with |- context [add_commit_student ?a ?b ?c ?d ?e ?f ?g w] =>
      pose proof (add_commit_student_effect a b c d e f g w)
        as (Hs & Hu & Ht & Ha & Hn & Hcase);
      destruct (add_commit_student a b c d e f g w) as [[[]|err] w'] end; simpl in *.
    + destruct Hcase as [[_ (n & i & e & Hn' & Hi & He & Hfi & Hfe & Hrows)]|[[? ?] _]];
        [|done].
      repeat apply conj; try done. left. split; [done|].
      exists n, i, e, p, h. by repeat apply conj.
    + destruct Hcase as [[? _]|[_ Hdb]]; [done|].
      unfold emit, logger, emit, mret, M_ret. simpl. rewrite Hdb. refused.
  - destruct (hash_or_page_failed "student_new_2.html" salt p e w Hp Hg) as [evs ->].
    simpl. repeat apply conj; try done. right. by destruct e.
Qed.

Lemma teacher_new_effect salt req w :
  let out := teacher_new salt req w in
  session (snd out) = session w ∧ uploads (snd out) = uploads w
  ∧ students (db (snd out)) = students (db w)
  ∧ achievements (db (snd out)) = achievements (db w)
  ∧ next_id (db (snd out)) = next_id (db w)
  ∧ ((fst out = Ok (redirect "teacher" [])
      ∧ ∃ n i e p h,
          form req !! "teacher_name" = Some n ∧ form req !! "teacher_id" = Some i
          ∧ form req !! "email" = Some e ∧ form req !! "password" = Some p
          ∧ p ≠ "" ∧ generate_password_hash salt p = Ok h
          ∧ (i ∉ (teacher_id <$> teachers (db w)))
          ∧ (e ∉ (teacher_email <$> teachers (db w)))
          ∧ teachers (db (snd out)) = (teachers (db w) ++ [teacher_row req n i e h])%list)
     ∨ (fst out ≠ Ok (redirect "teacher" []) ∧ db (snd out) = db w)).
Proof.
  intros out. subst out. unfold teacher_new.
  destruct (String.eqb (method req) "POST"); [|refused].
  unfold mbind, M_bind.
  destruct (form req !! "password") as [p|] eqn:Hpw;
    [|rewrite hash_or_page_empty by auto; refused].
  destruct (decide (p = "")) as [->|Hp];
    [rewrite hash_or_page_empty by auto; refused|].
  destruct (generate_password_hash salt p) as [h|e] eqn:Hg.
  - rewrite (hash_or_page_hashed _ _ _ h) by done.
    unfold try_except.
    match goal with |- context [add_commit_teacher ?a ?b ?c ?d ?e ?f ?g w] =>
      pose proof (add_commit_teacher_effect a b c d e f g w)
        as (Hs & Hu & Ht & Ha & Hn & Hcase);
      destruct (add_commit_teacher a b c d e f g w) as [[[]|err] w'] end; simpl in *.
    + destruct Hcase as [[_ (n & i & e & Hn' & Hi & He & Hfi & Hfe & Hrows)]|[[? ?] _]];
        [|done].
      repeat apply conj; try done. left. split; [done|].
      exists n, i, e, p, h. by repeat apply conj.
    + destruct Hcase as [[? _]|[_ Hdb]]; [done|].
      unfold emit, logger, emit, mret, M_ret. simpl. rewrite Hdb. refused.
  - destruct (hash_or_page_failed "teacher_new_2.html" salt p e w Hp Hg) as [evs ->].
    simpl. repeat apply conj; try done. right. by destruct e.
Qed.

Lemma student_new_post salt req w :
  method req = "POST" ->
  student_new salt req w =
    (hashed ← hash_or_page "student_new_2.html" salt (form req !! "password");
     match hashed with
     | inr early => mret early
     | inl hashed_password =>
         try_except
           (add_commit_student (form req !! "student_name") (form req !! "student_id")
              (form req !! "email") (form req !! "phone_number") hashed_password
              (form req !! "student_gender") (form req !! "student_dept");;
            mret (redirect "student" []))
           (fun e =>
              emit EvRollback;;
              logger "error" "Database error in student registration";;
              mret (database_error_page "student_new_2.html"))
     end) w.
Proof. intros Hm. unfold student_new. now rewrite Hm. Qed.

Lemma teacher_new_post salt req w :
  method req = "POST" ->
  teacher_new salt req w =
    (hashed ← hash_or_page "teacher_new_2.html" salt (form req !! "password");
     match hashed with
     | inr early => mret early
     | inl hashed_password =>
         try_except
           (add_commit_teacher (form req !! "teacher_name") (form req !! "teacher_id")
              (form req !! "email") (form req !! "phone_number") hashed_password
              (form req !! "teacher_gender") (form req !! "teacher_dept");;
            mret (redirect "teacher" []))
           (fun e =>
              emit EvRollback;;
              logger "error" "Database error in teacher registration";;
              mret (database_error_page "teacher_new_2.html"))
     end) w.
Proof. intros Hm. unfold teacher_new. now rewrite Hm. Qed.

End Registration.

(** X1: a registration whose password is absent or empty is answered with
    the password-cannot-be-empty form, and nothing at all has happened:
    no query, no insertion, no log record. *)
Theorem registration_rejects_empty_password `{P : Platform} :
  (∀ salt req w, method req = "POST" ->
     form req !! "password" = None ∨ form req !! "password" = Some "" ->
     student_new salt req w = (Ok (password_empty_page "student_new_2.html"), w))
  ∧ (∀ salt req w, method req = "POST" ->
       form req !! "password" = None ∨ form req !! "password" = Some "" ->
       teacher_new salt req w = (Ok (password_empty_page "teacher_new_2.html"), w)).
Proof.
  split; intros salt req w Hm Hpw.
  - rewrite student_new_post by done. unfold mbind, M_bind.
    now rewrite hash_or_page_empty.
  - rewrite teacher_new_post by done. unfold mbind, M_bind.
    now rewrite hash_or_page_empty.
Qed.

Lemma registration_rejects_empty_password_witness :
  student_new (P := Sample.platform) "c2FsdA"
    (post [("student_name", "Dave"); ("student_id", "S3"); ("email", "dave@example.org")])
    school
  = (Ok (password_empty_page "student_new_2.html"), school)
  ∧ teacher_new (P := Sample.platform) "c2FsdA"
      (post [("teacher_name", "Knuth"); ("teacher_id", "T2"); ("email", "k@example.org");
             ("password", "")])
      school
    = (Ok (password_empty_page "teacher_new_2.html"), school).
Proof.
  destruct (registration_rejects_empty_password (P := Sample.platform)) as [Hs Ht].
  apply conj.
  - apply Hs; [reflexivity|left; reflexivity].
  - apply Ht; [reflexivity|right; reflexivity].
Defined.

(** X2: when the hashing primitive raises on a non-empty password, the
    registration handlers insert nothing; they show the
    password-cannot-be-empty form if what was raised is a [ValueError]
    (the handler's [except ValueError] does not tell it from the empty
    password) and the unable-to-create form otherwise. *)
Theorem registration_hashing_failure `{P : Platform} (salt : string) (req : Request)
    (w : World) (p : string) (e : Exc) :
  method req = "POST" -> form req !! "password" = Some p -> p ≠ "" ->
  generate_password_hash salt p = Raise e ->
  (fst (student_new salt req w) = Ok (hashing_failure_page "student_new_2.html" e)
   ∧ db (snd (student_new salt req w)) = db w
   ∧ session (snd (student_new salt req w)) = session w)
  ∧ (fst (teacher_new salt req w) = Ok (hashing_failure_page "teacher_new_2.html" e)
     ∧ db (snd (teacher_new salt req w)) = db w
     ∧ session (snd (teacher_new salt req w)) = session w).
Proof.
  intros Hm Hpw Hp Hg. split.
  - rewrite student_new_post by done. unfold mbind, M_bind. rewrite Hpw.
    destruct (hash_or_page_failed "student_new_2.html" salt p e w Hp Hg) as [evs ->].
    done.
  - rewrite teacher_new_post by done. unfold mbind, M_bind. rewrite Hpw.
    destruct (hash_or_page_failed "teacher_new_2.html" salt p e w Hp Hg) as [evs ->].
    done.
Qed.

Lemma registration_hashing_failure_witness :
  let lib := failing_hash_platform (ValueError "Invalid hash method.") in
  let req := registration "Dave" "S3" "dave@example.org" "pw1" in
  (fst (student_new (P := lib) "c2FsdA" req school)
     = Ok (password_empty_page "student_new_2.html")
   ∧ db (snd (student_new (P := lib) "c2FsdA" req school)) = db school
   ∧ session (snd (student_new (P := lib) "c2FsdA" req school)) = session school)
  ∧ (fst (teacher_new (P := lib) "c2FsdA" req school)
       = Ok (password_empty_page "teacher_new_2.html")
     ∧ db (snd (teacher_new (P := lib) "c2FsdA" req school)) = db school
     ∧ session (snd (teacher_new (P := lib) "c2FsdA" req school)) = session school).
Proof.
  intros lib req.
  apply (registration_hashing_failure (P := lib) "c2FsdA" req school "pw1"
           (ValueError "Invalid hash method.")); first [reflexivity|discriminate].
Defined.

(** The successful run of [student_new], in full. *)
Lemma student_new_inserts `{P : Platform} (salt : string) (req : Request)
    (w : World) (n i e p h : string) :
  method req = "POST" ->
  form req !! "student_name" = Some n -> form req !! "student_id" = Some i ->
  form req !! "email" = Some e -> form req !! "password" = Some p ->
  p ≠ "" -> generate_password_hash salt p = Ok h ->
  i ∉ (student_id <$> students (db w)) -> e ∉ (student_email <$> students (db w)) ->
  let out := student_new salt req w in
  fst out = Ok (redirect "student" [])
  ∧ students (db (snd out)) = (students (db w) ++ [student_row req n i e h])%list
  ∧ teachers (db (snd out)) = teachers (db w)
  ∧ achievements (db (snd out)) = achievements (db w)
  ∧ session (snd out) = session w ∧ uploads (snd out) = uploads w.
Proof.
  intros Hm Hn Hi He Hpw Hp Hg Hfi Hfe out. subst out.
  destruct (student_new_effect salt req w) as (Hs & Hu & Ht & Ha & _ & Hcase).
  assert (fst (student_new salt req w) = Ok (redirect "student" [])) as Hok.
  { rewrite student_new_post by done. unfold mbind, M_bind. rewrite Hpw.
    rewrite (hash_or_page_hashed _ _ _ h) by done.
    unfold try_except, add_commit_student. rewrite Hn, Hi, He.
    unfold mbind, M_bind, emit, get_db, put_db, raise, mret, M_ret. simpl.
    apply not_existsb_fmap in Hfi, Hfe. now rewrite Hfi, Hfe. }
  destruct Hcase as [[_ (n' & i' & e' & p' & h' & Hn' & Hi' & He' & Hp' & _ & Hg' & _ & _ & Hrows)]
                    |[Hno _]]; [|done].
  rewrite Hn in Hn'. rewrite Hi in Hi'. rewrite He in He'. rewrite Hpw in Hp'.
  simplify_eq. rewrite Hg in Hg'. simplify_eq. done.
Qed.

(** X3: a student registration with name, identifier, email and a
    non-empty password that hashes, under an identifier and an email not
    yet in the table, redirects to the student login and appends exactly
    one row, which holds the hash in place of the password; nothing else
    changes. *)
Theorem student_registration_succeeds `{P : Platform} (salt : string) (req : Request)
    (w : World) (n i e p h : string) :
  method req = "POST" ->
  form req !! "student_name" = Some n -> form req !! "student_id" = Some i ->
  form req !! "email" = Some e -> form req !! "password" = Some p ->
  p ≠ "" -> generate_password_hash salt p = Ok h ->
  i ∉ (student_id <$> students (db w)) -> e ∉ (student_email <$> students (db w)) ->
  let out := student_new salt req w in
  fst out = Ok (redirect "student" [])
  ∧ students (db (snd out)) = (students (db w) ++ [student_row req n i e h])%list
  ∧ teachers (db (snd out)) = teachers (db w)
  ∧ achievements (db (snd out)) = achievements (db w)
  ∧ session (snd out) = session w ∧ uploads (snd out) = uploads w.
Proof. apply student_new_inserts. Qed.

Lemma student_registration_succeeds_witness :
  let req := registration "Dave" "S3" "dave@example.org" "pw1" in
  let out := student_new (P := Sample.platform) "c2FsdA" req school in
  fst out = Ok (redirect "student" [])
  ∧ students (db (snd out))
    = (students (db school)
       ++ [student_row req "Dave" "S3" "dave@example.org" "toy$pw1"])%list
  ∧ teachers (db (snd out)) = teachers (db school)
  ∧ achievements (db (snd out)) = achievements (db school)
  ∧ session (snd out) = session school ∧ uploads (snd out) = uploads school.
Proof.
  intros req.
  apply (student_registration_succeeds (P := Sample.platform) "c2FsdA" req school
           "Dave" "S3" "dave@example.org" "pw1" "toy$pw1");
    try reflexivity; try discriminate.
  - simpl. rewrite !not_elem_of_cons. repeat split; try discriminate. apply not_elem_of_nil.
  - simpl. rewrite !not_elem_of_cons. repeat split; try discriminate. apply not_elem_of_nil.
Defined.

(** X4: when the password hashes but the engine refuses the row (name,
    identifier or email missing, identifier or email already taken), the
    student registration answers with the generic database-error form and
    the database is what it was. *)
Theorem student_registration_refused `{P : Platform} (salt : string) (req : Request)
    (w : World) (p h : string) :
  method req = "POST" -> form req !! "password" = Some p -> p ≠ "" ->
  generate_password_hash salt p = Ok h ->
  student_insert_refused req (db w) ->
  let out := student_new salt req w in
  fst out = Ok (database_error_page "student_new_2.html")
  ∧ db (snd out) = db w ∧ session (snd out) = session w.
Proof.
  intros Hm Hpw Hp Hg Hrefused out. subst out.
  rewrite student_new_post by done. unfold mbind, M_bind. rewrite Hpw.
  rewrite (hash_or_page_hashed _ _ _ h) by done. unfold try_except.
  match goal with |- context [add_commit_student ?a ?b ?c ?d ?e ?f ?g w] =>
    pose proof (add_commit_student_effect a b c d e f g w)
      as (Hs & Hu & Ht & Ha & Hn & Hcase);
    destruct (add_commit_student a b c d e f g w) as [[[]|err] w'] end; simpl in *.
  - destruct Hcase as [[_ (n & i & e & Hn' & Hi & He & Hfi & Hfe & _)]|[[? ?] _]]; [|done].
    exfalso. destruct Hrefused as [H|[H|[H|[(i' & H & Hin)|(e' & H & Hin)]]]];
      congruence.
  - destruct Hcase as [[? _]|[_ Hdb]]; [done|].
    unfold emit, logger, emit, mret, M_ret. simpl. by rewrite Hdb.
Qed.

Lemma student_registration_refused_witness :
  let req := registration "Alice Again" "S1" "again@example.org" "pw1" in
  let out := student_new (P := Sample.platform) "c2FsdA" req school in
  fst out = Ok (database_error_page "student_new_2.html")
  ∧ db (snd out) = db school ∧ session (snd out) = session school.
Proof.
  intros req.
  apply (student_registration_refused (P := Sample.platform) "c2FsdA" req school
           "pw1" "toy$pw1"); try reflexivity; try discriminate.
  right. right. right. left. exists "S1". split; [reflexivity|]. simpl. apply list_elem_of_here.
Defined.

Lemma NoDup_fmap_snoc {A} (f : A -> string) (l : list A) (a : A) :
  NoDup (f <$> l) -> f a ∉ (f <$> l) -> NoDup (f <$> (l ++ [a])%list).
Proof.
  intros Hl Ha. rewrite fmap_app. apply NoDup_app. split; [done|]. split.
  - intros x Hx Hin. apply list_elem_of_singleton in Hin. by subst.
  - apply NoDup_singleton.
Qed.

(** X5: the registration handlers keep identifiers and emails unique in
    both identity tables, whatever the request, and never drop or change a
    row already there. *)
Theorem registration_keeps_identities_unique `{P : Platform} (salt : string)
    (req : Request) (w : World) :
  identities_unique (db w) ->
  (identities_unique (db (snd (student_new salt req w)))
   ∧ students (db w) `prefix_of` students (db (snd (student_new salt req w))))
  ∧ (identities_unique (db (snd (teacher_new salt req w)))
     ∧ teachers (db w) `prefix_of` teachers (db (snd (teacher_new salt req w)))).
Proof.
  intros (Hsi & Hse & Hti & Hte). split.
  - destruct (student_new_effect salt req w) as (_ & _ & Ht & _ & _ & Hcase).
    destruct Hcase as [[_ (n & i & e & p & h & _ & _ & _ & _ & _ & _ & Hfi & Hfe & Hrows)]
                      |[_ Hdb]].
    + unfold identities_unique. rewrite Hrows, Ht. split.
      * repeat apply conj; try done; by apply NoDup_fmap_snoc.
      * by apply prefix_app_r.
    + rewrite Hdb. split; [done|]. done.
  - destruct (teacher_new_effect salt req w) as (_ & _ & Hs & _ & _ & Hcase).
    destruct Hcase as [[_ (n & i & e & p & h & _ & _ & _ & _ & _ & _ & Hfi & Hfe & Hrows)]
                      |[_ Hdb]].
    + unfold identities_unique. rewrite Hrows, Hs. split.
      * repeat apply conj; try done; by apply NoDup_fmap_snoc.
      * by apply prefix_app_r.
    + rewrite Hdb. split; [done|]. done.
Qed.

Lemma school_identities_unique : identities_unique (db school).
Proof.
  unfold identities_unique. simpl.
  repeat apply conj;
    repeat (apply NoDup_cons_2;
            [rewrite ?not_elem_of_cons; repeat split; try discriminate; apply not_elem_of_nil|]);
    apply NoDup_nil_2.
Qed.

Lemma registration_keeps_identities_unique_witness :
  let req := registration "Dave" "S3" "dave@example.org" "pw1" in
  let req_t := teacher_registration "Knuth" "T2" "k@example.org" "tex" in
  (identities_unique (db (snd (student_new (P := Sample.platform) "c2FsdA" req school)))
   ∧ students (db school)
     `prefix_of` students (db (snd (student_new (P := Sample.platform) "c2FsdA" req school))))
  ∧ (identities_unique (db (snd (teacher_new (P := Sample.platform) "c2FsdA" req_t school)))
     ∧ teachers (db school)
       `prefix_of` teachers (db (snd (teacher_new (P := Sample.platform) "c2FsdA" req_t school)))).
Proof.
  intros req req_t.
  destruct (registration_keeps_identities_unique (P := Sample.platform) "c2FsdA" req school
              school_identities_unique) as [Hs _].
  destruct (registration_keeps_identities_unique (P := Sample.platform) "c2FsdA" req_t school
              school_identities_unique) as [_ Ht].
  exact (conj Hs Ht).
Defined.

(** ** Sessions: login, logout and the gates *)

Lemma sget_student_session so sess :
  sget (student_session so sess) "logged_in" = PyBool true
  ∧ sget (student_session so sess) "student_id" = PyStr (student_id so)
  ∧ sget (student_session so sess) "student_name" = PyStr (student_name so)
  ∧ sget (student_session so sess) "student_dept" = of_text (student_dept so)
  ∧ sget (student_session so sess) "teacher_id" = sget sess "teacher_id".
Proof. unfold sget, student_session. repeat apply conj; by simplify_map_eq. Qed.

Lemma sget_teacher_session to sess :
  sget (teacher_session to sess) "logged_in" = PyBool true
  ∧ sget (teacher_session to sess) "teacher_id" = PyStr (teacher_id to)
  ∧ sget (teacher_session to sess) "teacher_name" = PyStr (teacher_name to)
  ∧ sget (teacher_session to sess) "teacher_dept" = of_text (teacher_dept to)
  ∧ sget (teacher_session to sess) "student_id" = sget sess "student_id".
Proof. unfold sget, teacher_session. repeat apply conj; by simplify_map_eq. Qed.

Section Sessions.
Context `{P : Platform}.

(** A verification that answers true has written nothing. *)
Lemma verify_password_true h p w :
  fst (verify_password h p w) = Ok true -> verify_password h p w = (Ok true, w).
Proof.
  unfold verify_password. destruct h as [h|], p as [p|]; try done.
  destruct (_ || _); [done|].
  unfold try_except, lift. destruct (check_password_hash h p) as [[]|e]; done.
Qed.

Lemma student_login_ok req w so :
  method req = "POST" ->
  first_student (db w) (form req !! "sname") = Some so ->
  fst (verify_password (Some (student_password so)) (form req !! "password") w) = Ok true ->
  student req w = (Ok (redirect "student-dashboard" []),
                   with_session (logged w [EvSelect "student"])
                     (student_session so (session w))).
Proof.
  intros Hm Hso Hv. unfold student. rewrite Hm. run_M. rewrite Hso.
  match goal with |- context [verify_password ?h ?p ?w1] =>
    pose proof (verify_password_world h p w1 w) as Hw;
    rewrite Hv in Hw; rewrite (verify_password_true h p w1 Hw) end.
  reflexivity.
Qed.

Lemma teacher_login_ok req w to :
  method req = "POST" ->
  first_teacher (db w) (form req !! "tname") = Some to ->
  fst (verify_password (Some (teacher_password to)) (form req !! "password") w) = Ok true ->
  teacher req w = (Ok (redirect "teacher-dashboard" []),
                   with_session (logged w [EvSelect "teacher"])
                     (teacher_session to (session w))).
Proof.
  intros Hm Hto Hv. unfold teacher. rewrite Hm. run_M. rewrite Hto.
  match goal with |- context [verify_password ?h ?p ?w1] =>
    pose proof (verify_password_world h p w1 w) as Hw;
    rewrite Hv in Hw; rewrite (verify_password_true h p w1 Hw) end.
  reflexivity.
Qed.

End Sessions.

(** X6: a student login that finds the record and verifies the password
    redirects to the student dashboard and writes the flag and the
    student's three fields into the session, over what was there; it
    writes nothing to the database.  The dashboard then shows that
    student, and the session is a teacher session only if it held a teacher
    identifier before. *)
Theorem student_login_success `{P : Platform} (req : Request) (w : World) (so : Student) :
  method req = "POST" ->
  first_student (db w) (form req !! "sname") = Some so ->
  fst (verify_password (Some (student_password so)) (form req !! "password") w) = Ok true ->
  let out := student req w in
  fst out = Ok (redirect "student-dashboard" [])
  ∧ session (snd out) = student_session so (session w)
  ∧ db (snd out) = db w ∧ uploads (snd out) = uploads w
  ∧ (∀ req', fst (student_dashboard req' (snd out))
             = Ok (render_template "student_dashboard.html"
                     [arg_student {| data_id := PyStr (student_id so);
                                     data_name := PyStr (student_name so);
                                     data_dept := of_text (student_dept so) |}]))
  ∧ active_teacher_session (session (snd out)) = truthy (sget (session w) "teacher_id").
Proof.
  intros Hm Hso Hv out. subst out. rewrite (student_login_ok req w so) by done. simpl.
  destruct (sget_student_session so (session w)) as (Hl & Hi & Hn & Hd & Ht).
  repeat apply conj; try done.
  - intros req'. unfold student_dashboard, student_data. run_M.
    now rewrite Hl, Hi, Hn, Hd.
  - unfold active_teacher_session. now rewrite Hl, Ht.
Qed.

Lemma student_login_success_witness :
  let req := post [("sname", "S1"); ("password", "secret")] in
  let out := student (P := Sample.platform) req teacher_logged_in in
  fst out = Ok (redirect "student-dashboard" [])
  ∧ session (snd out) = student_session alice (session teacher_logged_in)
  ∧ db (snd out) = db teacher_logged_in ∧ uploads (snd out) = uploads teacher_logged_in
  ∧ (∀ req', fst (student_dashboard req' (snd out))
             = Ok (render_template "student_dashboard.html"
                     [arg_student {| data_id := PyStr (student_id alice);
                                     data_name := PyStr (student_name alice);
                                     data_dept := of_text (student_dept alice) |}]))
  ∧ active_teacher_session (session (snd out))
    = truthy (sget (session teacher_logged_in) "teacher_id").
Proof.
  intros req.
  apply (student_login_success (P := Sample.platform) req teacher_logged_in alice);
    reflexivity.
Defined.

(** X7: a teacher login that finds the record and verifies the password
    redirects to the teacher dashboard, writes the flag and the teacher's
    three fields into the session and nothing to the database; the
    dashboard then shows that teacher.  The session it leaves passes the
    gate of [submit_achievements] exactly when the teacher's identifier is
    not the empty string. *)
Theorem teacher_login_success `{P : Platform} (req : Request) (w : World) (to : Teacher) :
  method req = "POST" ->
  first_teacher (db w) (form req !! "tname") = Some to ->
  fst (verify_password (Some (teacher_password to)) (form req !! "password") w) = Ok true ->
  let out := teacher req w in
  fst out = Ok (redirect "teacher-dashboard" [])
  ∧ session (snd out) = teacher_session to (session w)
  ∧ db (snd out) = db w ∧ uploads (snd out) = uploads w
  ∧ (∀ req', ∃ stats recent,
       fst (teacher_dashboard req' (snd out))
       = Ok (render_template "teacher_dashboard.html"
               [arg_teacher {| data_id := PyStr (teacher_id to);
                               data_name := PyStr (teacher_name to);
                               data_dept := of_text (teacher_dept to) |};
                arg_stats stats; arg_recent_entries recent]))
  ∧ active_teacher_session (session (snd out)) = nonempty (teacher_id to).
Proof.
  intros Hm Hto Hv out. subst out. rewrite (teacher_login_ok req w to) by done. simpl.
  destruct (sget_teacher_session to (session w)) as (Hl & Hi & Hn & Hd & _).
  repeat apply conj; try done.
  - intros req'. rewrite teacher_dashboard_logged_in by (simpl; now rewrite Hl).
    simpl. rewrite Hi, Hn, Hd. by eexists _, _.
  - unfold active_teacher_session. now rewrite Hl, Hi.
Qed.

Lemma teacher_login_success_witness :
  let req := post [("tname", "T1"); ("password", "chalk")] in
  let out := teacher (P := Sample.platform) req school in
  fst out = Ok (redirect "teacher-dashboard" [])
  ∧ session (snd out) = teacher_session mr_t (session school)
  ∧ db (snd out) = db school ∧ uploads (snd out) = uploads school
  ∧ (∀ req', ∃ stats recent,
       fst (teacher_dashboard (P := Sample.platform) req' (snd out))
       = Ok (render_template "teacher_dashboard.html"
               [arg_teacher {| data_id := PyStr (teacher_id mr_t);
                               data_name := PyStr (teacher_name mr_t);
                               data_dept := of_text (teacher_dept mr_t) |};
                arg_stats stats; arg_recent_entries recent]))
  ∧ active_teacher_session (session (snd out)) = nonempty (teacher_id mr_t).
Proof.
  intros req.
  apply (teacher_login_success (P := Sample.platform) req school mr_t); reflexivity.
Defined.



Section Gates.
Context `{P : Platform}.

(** Every response of [record_achievement] is the submission form. *)
Lemma record_achievement_renders req sid name tid path w r :
  fst (record_achievement req sid name tid path w) = Ok r -> ∃ a, r = submit_form a.
Proof.
  unfold record_achievement. unfold mbind, M_bind.
  destruct (parse_team_size (form req !! "team_size") w) as [[ts|e] w']; [|done].
  destruct (form req !! "achievement_date") as [date_str|]; [|intros [= <-]; by eexists].
  destruct (negb (nonempty date_str)); [intros [= <-]; by eexists|].
  destruct (strptime_Ymd date_str) as [d|[m|m|m|m|m]]; try done;
    [|intros [= <-]; by eexists].
  unfold try_except.
  match goal with |- context [add_commit ?o ?s w'] =>
    destruct (add_commit o s w') as [[[]|e] w''] end; run_M; intros [= <-]; by eexists.
Qed.

Lemma store_certificate_renders req w r :
  fst (store_certificate req w) = Ok (inr r) -> r = invalid_file_type_page.
Proof.
  unfold store_certificate. destruct (files req !! "certificate") as [f|]; [|done].
  destruct (nonempty (filename f)); [|done].
  destruct (allowed_file (filename f)); [|by intros [= <-]].
  cbv beta iota zeta delta [mbind M_bind file_save].
  by destruct (NAME_MAX <? _)%nat.
Qed.

End Gates.

(** X9: [submit_achievements] redirects to the teacher login exactly when
    the session lacks the logged-in flag or a teacher identifier; in that
    case nothing has been read or written, and in the other case no request
    whatsoever is answered with that redirect. *)
Theorem submit_requires_teacher_session `{P : Platform} (req : Request) (w : World) :
  (active_teacher_session (session w) = false ->
   submit_achievements req w = (Ok (redirect "teacher" []), w))
  ∧ (active_teacher_session (session w) = true ->
     fst (submit_achievements req w) ≠ Ok (redirect "teacher" [])).
Proof.
  split; intros Ha.
  - by apply submit_without_teacher_session.
  - destruct (decide (method req = "POST")) as [Hm|Hm];
      [|by rewrite submit_not_post].
    destruct (first_student (db w) (form req !! "student_id")) as [so|] eqn:Hso;
      [|by rewrite submit_student_missing].
    rewrite (submit_known_student req w so) by done. unfold mbind, M_bind.
    pose proof (store_certificate_renders req (logged w [EvSelect "student"])) as Hc.
    destruct (store_certificate req (logged w [EvSelect "student"])) as [[[path|early]|e] w'];
      simpl in *.
    + intros H. apply record_achievement_renders in H as [a Ha']. done.
    + rewrite (Hc early eq_refl). done.
    + done.
Qed.

Lemma submit_requires_teacher_session_witness :
  submit_achievements (P := Sample.platform) (submission "S1" "2024-03-01") student_logged_in
    = (Ok (redirect "teacher" []), student_logged_in)
  ∧ fst (submit_achievements (P := Sample.platform) (submission "S1" "2024-03-01")
           teacher_logged_in)
    ≠ Ok (redirect "teacher" []).
Proof.
  apply conj.
  - apply (submit_requires_teacher_session (P := Sample.platform)). reflexivity.
  - apply (submit_requires_teacher_session (P := Sample.platform)). reflexivity.
Defined.

(** X10: logout answers with a redirect to the home page and empties the
    session, whatever it held, without touching the database, the upload
    folder or the log; after it, each of the five gated handlers answers
    with the redirect to its login page and does nothing else. *)
Theorem logout_ends_every_session `{P : Platform} (req : Request) (w : World) :
  let w' := snd (logout req w) in
  fst (logout req w) = Ok (redirect "home" [])
  ∧ session w' = ∅ ∧ db w' = db w ∧ uploads w' = uploads w ∧ trace w' = trace w
  ∧ ∀ req',
      student_dashboard req' w' = (Ok (redirect "student" []), w')
      ∧ student_achievements req' w' = (Ok (redirect "student" []), w')
      ∧ teacher_dashboard req' w' = (Ok (redirect "teacher" []), w')
      ∧ all_achievements req' w' = (Ok (redirect "teacher" []), w')
      ∧ submit_achievements req' w' = (Ok (redirect "teacher" []), w').
Proof.
  intros w'. subst w'. unfold logout. unfold session_clear. run_M.
  repeat apply conj; try done.
Qed.

(** X11: the four views only read: whatever the session and the store,
    the student dashboard and achievements page leave the world as it is,
    and the teacher dashboard and the listing leave the session, the
    database and the upload folder as they are. *)
Theorem views_only_read `{P : Platform} (req : Request) (w : World) :
  snd (student_dashboard req w) = w
  ∧ snd (student_achievements req w) = w
  ∧ (session (snd (teacher_dashboard req w)) = session w
     ∧ db (snd (teacher_dashboard req w)) = db w
     ∧ uploads (snd (teacher_dashboard req w)) = uploads w)
  ∧ (session (snd (all_achievements req w)) = session w
     ∧ db (snd (all_achievements req w)) = db w
     ∧ uploads (snd (all_achievements req w)) = uploads w).
Proof.
  repeat apply conj.
  - unfold student_dashboard. run_M. by destruct (truthy _).
  - unfold student_achievements. run_M. by destruct (truthy _).
  - destruct (truthy (sget (session w) "logged_in")) eqn:H;
      [by rewrite teacher_dashboard_logged_in|by rewrite teacher_dashboard_logged_out].
  - destruct (truthy (sget (session w) "logged_in")) eqn:H;
      [by rewrite teacher_dashboard_logged_in|by rewrite teacher_dashboard_logged_out].
  - destruct (truthy (sget (session w) "logged_in")) eqn:H;
      [by rewrite teacher_dashboard_logged_in|by rewrite teacher_dashboard_logged_out].
  - destruct (truthy (sget (session w) "logged_in")) eqn:H;
      [by rewrite all_achievements_logged_in|by rewrite all_achievements_logged_out].
  - destruct (truthy (sget (session w) "logged_in")) eqn:H;
      [by rewrite all_achievements_logged_in|by rewrite all_achievements_logged_out].
  - destruct (truthy (sget (session w) "logged_in")) eqn:H;
      [by rewrite all_achievements_logged_in|by rewrite all_achievements_logged_out].
Qed.


(** ** Submission: what gets recorded *)



(** X13: a submission (teacher session, existing student, an acceptable
    certificate or none, a team size that is blank or an integer, a date
    that parses) with one of the four required fields missing from the
    form is refused by the engine: the handler rolls back and shows the
    generic error; the database is as before, and a certificate that came
    with the request, its stored name within the file system's limit,
    stays in the upload folder. *)
Theorem submit_missing_required_field `{P : Platform} (req : Request) (w : World)
    (so : Student) (ts : option Z) (date_str : string) (d : date) :
  active_teacher_session (session w) = true -> method req = "POST" ->
  first_student (db w) (form req !! "student_id") = Some so ->
  certificate_acceptable req -> team_size_is req ts ->
  form req !! "achievement_date" = Some date_str -> date_str ≠ "" ->
  strptime_Ymd date_str = Ok d ->
  ¬ required_fields_given req ->
  let out := submit_achievements req w in
  fst out = Ok generic_error_page
  ∧ db (snd out) = db w ∧ session (snd out) = session w
  ∧ uploads (snd out) = uploads_after_certificate req w.
Proof.
  intros Ha Hm Hso Hcert Hts Hd Hne Hp Hreq out. subst out.
  rewrite (submit_known_student req w so) by done. unfold mbind, M_bind.
  rewrite store_certificate_acceptable by done.
  match goal with |- context [record_achievement _ _ _ _ _ ?w1] =>
    rewrite (record_achievement_commit req _ _ _ _ w1 ts date_str d) by done end.
  match goal with |- context [not_null ?r] => destruct (not_null r) eqn:Hnn end.
  { apply not_null_new in Hnn. tauto. }
  rewrite andb_false_r.
  assert (uploads_after_certificate req (logged w [EvSelect "student"])
          = uploads_after_certificate req w) as Hup by done.
  destruct (recorded_certificate_path req) as [path|] eqn:Hpath; simpl;
    repeat apply conj; try done.
  unfold uploads_after_certificate, recorded_certificate_path in *.
  destruct (files req !! "certificate") as [f|]; [|done]. by destruct (nonempty _).
Qed.

Lemma submit_missing_required_field_witness :
  let req := request "POST"
               [("student_id", "S2"); ("achievement_type", "hackathon");
                ("achievement_date", "2024-02-29"); ("organizer", "ACM");
                ("position", "1st")]
               [("certificate", {| filename := "cert.pdf"; content := "%PDF-1.7" |})] in
  let out := submit_achievements (P := Sample.platform) req teacher_logged_in in
  fst out = Ok generic_error_page
  ∧ db (snd out) = db teacher_logged_in ∧ session (snd out) = session teacher_logged_in
  ∧ uploads (snd out) = uploads_after_certificate (P := Sample.platform) req teacher_logged_in.
Proof.
  intros req.
  apply (submit_missing_required_field (P := Sample.platform) req teacher_logged_in carol
           None "2024-02-29" 738945); try reflexivity; try discriminate.
  - right. split; [reflexivity|]. vm_compute. lia.
  - intros (_ & [x Hx] & _). discriminate.
Defined.

(** X14: whatever the request, [submit_achievements] leaves the session
    and the two identity tables alone, and changes the achievements table
    at most by appending one row; that row carries the teacher identifier
    of the session and the identifier of a student that exists, takes the
    next row identifier, and comes with the success page for that
    student. *)
Theorem submit_keeps_references `{P : Platform} (req : Request) (w : World) :
  let out := submit_achievements req w in
  session (snd out) = session w
  ∧ students (db (snd out)) = students (db w)
  ∧ teachers (db (snd out)) = teachers (db w)
  ∧ (achievements (db (snd out)) = achievements (db w)
     ∨ ∃ a so T,
         achievements (db (snd out)) = (achievements (db w) ++ [a])%list
         ∧ sget (session w) "teacher_id" = PyStr T ∧ a_teacher_id a = Some T
         ∧ first_student (db w) (a_student_id a) = Some so
         ∧ id a = next_id (db w)
         ∧ fst out = Ok (success_page (student_name so))).
Proof.
  intros out. subst out.
  destruct (active_teacher_session (session w)) eqn:Ha;
    [|rewrite submit_without_teacher_session; auto].
  destruct (decide (method req = "POST")) as [Hm|Hm];
    [|rewrite submit_not_post; auto].
  destruct (first_student (db w) (form req !! "student_id")) as [so|] eqn:Hso;
    [|rewrite submit_student_missing by done; simpl; auto].
  rewrite (submit_known_student req w so) by done. unfold mbind, M_bind.
  assert (∃ w1, snd (store_certificate req (logged w [EvSelect "student"])) = w1
                ∧ session w1 = session w ∧ db w1 = db w) as (w1 & Hw1 & Hs1 & Hd1).
  { eexists. split; [done|]. unfold store_certificate.
    destruct (files req !! "certificate") as [f|]; [|done].
    destruct (nonempty (filename f)); [|done].
    destruct (allowed_file (filename f)); [|done].
    cbv beta iota zeta delta [mbind M_bind file_save].
    by destruct (NAME_MAX <? _)%nat. }
  destruct (store_certificate req (logged w [EvSelect "student"])) as [[[path|early]|e] w1'];
    simpl in Hw1; subst w1'; simpl; [|rewrite Hs1, Hd1; auto..].
  destruct (record_achievement_row req (form req !! "student_id") (student_name so)
              (sget (session w) "teacher_id") path w1) as (Hs & _ & Hcase).
  rewrite Hs, Hs1. destruct Hcase as [Hdb|(d & ts & Hnn & Hok & Hdb)].
  - rewrite Hdb, Hd1. auto.
  - rewrite Hdb, Hd1. simpl. repeat apply conj; try done. right.
    apply not_null_new in Hnn as (_ & [T HT] & _).
    destruct (sget (session w) "teacher_id") as [|b|T'] eqn:Htid; try done.
    simpl in HT. simplify_eq.
    eexists _, so, T. repeat apply conj; try done.
Qed.

(** ** Listings and figures *)

Lemma length_remove_dups_le {A} `{EqDecision A} (l : list A) :
  (length (remove_dups l) <= length l)%nat.
Proof.
  induction l as [|a l IH]; simpl; [done|]. destruct (decide_rel _ a l); simpl; lia.
Qed.

Lemma length_omap_le {A B} (f : A -> option B) (l : list A) :
  (length (omap f l) <= length l)%nat.
Proof.
  induction l as [|a l IH]; csimpl; [done|]. destruct (f a); simpl; lia.
Qed.

(** X15: for a logged-in session whose teacher identifier is [T], the
    listing shows every achievement recorded by [T] and no other row, each
    once, latest date first (for an engine whose ORDER BY returns a
    descending rearrangement of its input). *)
Theorem all_achievements_listing `{P : Platform} (OB : OrderByContract P)
    (req : Request) (w : World) (T : string) :
  truthy (sget (session w) "logged_in") = true ->
  session w !! "teacher_id" = Some (PyStr T) ->
  ∃ rows,
    fst (all_achievements req w)
      = Ok (render_template "all_achievements.html" [arg_achievements rows])
    ∧ Permutation rows
        (List.filter (fun a => bool_decide (a_teacher_id a = Some T)) (achievements (db w)))
    ∧ StronglySorted (fun a b => achievement_date b <= achievement_date a) rows
    ∧ ∀ a, a ∈ rows <-> a ∈ achievements (db w) ∧ a_teacher_id a = Some T.
Proof.
  intros Hl Ht. rewrite all_achievements_logged_in by done.
  assert (sget (session w) "teacher_id" = PyStr T) as -> by (unfold sget; now rewrite Ht).
  rewrite (List.filter_ext _ _ (by_teacher_str T)).
  eexists. split; [reflexivity|].
  pose proof (order_by_perm achievement_date
                (List.filter (fun a => bool_decide (a_teacher_id a = Some T))
                   (achievements (db w)))) as Hperm.
  split; [done|]. split; [apply order_by_sorted|].
  intros a. rewrite Hperm, !list_elem_of_In, List.filter_In, bool_decide_eq_true. done.
Qed.

Lemma all_achievements_listing_witness :
  ∃ rows,
    fst (all_achievements (P := Sample.platform) get three_rows)
      = Ok (render_template "all_achievements.html" [arg_achievements rows])
    ∧ Permutation rows
        (List.filter (fun a => bool_decide (a_teacher_id a = Some "T1"))
           (achievements (db three_rows)))
    ∧ StronglySorted (fun a b => achievement_date b <= achievement_date a) rows
    ∧ ∀ a, a ∈ rows <-> a ∈ achievements (db three_rows) ∧ a_teacher_id a = Some "T1".
Proof.
  apply (all_achievements_listing (P := Sample.platform) sample_order_by get three_rows "T1");
    reflexivity.
Defined.

(** X16: the figures of the teacher dashboard are consistent with one
    another for every logged-in session: the students managed and this
    week's count never exceed the total, and the recent entries are at most
    five and at most the total. *)
Theorem dashboard_figures_consistent `{P : Platform} (OB : OrderByContract P)
    (req : Request) (w : World) :
  truthy (sget (session w) "logged_in") = true ->
  ∃ who stats recent,
    fst (teacher_dashboard req w)
      = Ok (render_template "teacher_dashboard.html"
              [arg_teacher who; arg_stats stats; arg_recent_entries recent])
    ∧ (students_managed stats <= total_achievements stats)%nat
    ∧ (this_week stats <= total_achievements stats)%nat
    ∧ (length recent <= 5)%nat
    ∧ (length recent <= total_achievements stats)%nat.
Proof.
  intros Hl. rewrite teacher_dashboard_logged_in by done.
  eexists _, _, _. split; [reflexivity|]. simpl.
  set (mine := List.filter _ (achievements (db w))).
  repeat apply conj.
  - unfold count_distinct_students.
    etransitivity; [apply length_remove_dups_le|apply length_omap_le].
  - rewrite filter_filter. apply List.filter_length_le.
  - rewrite length_take. lia.
  - rewrite length_take, (Permutation_length (order_by_perm created_at mine)). lia.
Qed.

Lemma dashboard_figures_consistent_witness :
  ∃ who stats recent,
    fst (teacher_dashboard (P := Sample.platform) get three_rows)
      = Ok (render_template "teacher_dashboard.html"
              [arg_teacher who; arg_stats stats; arg_recent_entries recent])
    ∧ (students_managed stats <= total_achievements stats)%nat
    ∧ (this_week stats <= total_achievements stats)%nat
    ∧ (length recent <= 5)%nat
    ∧ (length recent <= total_achievements stats)%nat.
Proof.
  apply (dashboard_figures_consistent (P := Sample.platform) sample_order_by get three_rows).
  reflexivity.
Defined.

(** ** Upload validation, further *)

Lemma lower_char_dot c : Ascii.eqb (lower_char c) "." = Ascii.eqb c ".".
Proof. destruct c as [[] [] [] [] [] [] [] []]; reflexivity. Qed.

Lemma lower_char_idem c : lower_char (lower_char c) = lower_char c.
Proof. destruct c as [[] [] [] [] [] [] [] []]; reflexivity. Qed.

Lemma lower_idem s : lower (lower s) = lower s.
Proof. induction s as [|c s IH]; simpl; [done|]. now rewrite lower_char_idem, IH. Qed.

Lemma contains_dot_lower s : contains "." (lower s) = contains "." s.
Proof. induction s as [|c s IH]; simpl; [done|]. now rewrite lower_char_dot, IH. Qed.

Lemma rsplit1_dot_lower s : rsplit1 "." (lower s) = lower <$> rsplit1 "." s.
Proof.
  induction s as [|c s IH]; simpl; [done|]. rewrite IH, lower_char_dot.
  destruct (rsplit1 "." s) as [|x [|y [|z l]]]; simpl; try done;
    by destruct (Ascii.eqb c ".").
Qed.

Lemma allowed_file_lower name : allowed_file (lower name) = allowed_file name.
Proof.
  unfold allowed_file. rewrite contains_dot_lower, rsplit1_dot_lower.
  rewrite list_lookup_fmap. destruct (rsplit1 "." name !! 1%nat); simpl; [|done].
  now rewrite lower_idem.
Qed.

(** X17: [allowed_file] looks at nothing but the text after the last dot,
    and at that without regard to case: two names that differ only in the
    case of their letters get the same answer, two names with the same
    dot-free ending after a dot get the same answer whatever stands before
    it, and a name without a dot is refused. *)
Theorem allowed_file_reads_final_extension :
  (∀ a b, lower a = lower b -> allowed_file a = allowed_file b)
  ∧ (∀ stem stem' ext, contains "." ext = false ->
       allowed_file (stem ++ String "." ext) = allowed_file (stem' ++ String "." ext))
  ∧ (∀ name, contains "." name = false -> allowed_file name = false).
Proof.
  repeat apply conj.
  - intros a b H. rewrite <- (allowed_file_lower a), <- (allowed_file_lower b). now rewrite H.
  - intros stem stem' ext H. unfold allowed_file.
    now rewrite !contains_append, !(rsplit1_last _ _ ext H).
  - intros name H. unfold allowed_file. now rewrite H.
Qed.

Lemma allowed_file_reads_final_extension_witness :
  allowed_file "Diploma.PdF" = allowed_file "diploma.pdf"
  ∧ allowed_file "setup.exe.pdf" = allowed_file "cert.pdf"
  ∧ allowed_file "pdf" = false.
Proof.
  destruct allowed_file_reads_final_extension as (Hcase & Hstem & Hdot).
  repeat apply conj.
  - apply Hcase. reflexivity.
  - apply (Hstem "setup.exe" "cert" "pdf"). reflexivity.
  - apply Hdot. reflexivity.
Defined.

(** ** Teachers: registration, login, and what the log keeps *)

(** The successful run of [teacher_new], in full. *)
Lemma teacher_new_inserts `{P : Platform} (salt : string) (req : Request)
    (w : World) (n i e p h : string) :
  method req = "POST" ->
  form req !! "teacher_name" = Some n -> form req !! "teacher_id" = Some i ->
  form req !! "email" = Some e -> form req !! "password" = Some p ->
  p ≠ "" -> generate_password_hash salt p = Ok h ->
  i ∉ (teacher_id <$> teachers (db w)) -> e ∉ (teacher_email <$> teachers (db w)) ->
  let out := teacher_new salt req w in
  fst out = Ok (redirect "teacher" [])
  ∧ teachers (db (snd out)) = (teachers (db w) ++ [teacher_row req n i e h])%list
  ∧ students (db (snd out)) = students (db w)
  ∧ achievements (db (snd out)) = achievements (db w)
  ∧ session (snd out) = session w ∧ uploads (snd out) = uploads w.
Proof.
  intros Hm Hn Hi He Hpw Hp Hg Hfi Hfe out. subst out.
  destruct (teacher_new_effect salt req w) as (Hs & Hu & Ht & Ha & _ & Hcase).
  assert (fst (teacher_new salt req w) = Ok (redirect "teacher" [])) as Hok.
  { rewrite teacher_new_post by done. unfold mbind, M_bind. rewrite Hpw.
    rewrite (hash_or_page_hashed _ _ _ h) by done.
    unfold try_except, add_commit_teacher. rewrite Hn, Hi, He.
    unfold mbind, M_bind, emit, get_db, put_db, raise, mret, M_ret. simpl.
    apply not_existsb_fmap in Hfi, Hfe. now rewrite Hfi, Hfe. }
  destruct Hcase as [[_ (n' & i' & e' & p' & h' & Hn' & Hi' & He' & Hp' & _ & Hg' & _ & _ & Hrows)]
                    |[Hno _]]; [|done].
  rewrite Hn in Hn'. rewrite Hi in Hi'. rewrite He in He'. rewrite Hpw in Hp'.
  simplify_eq. rewrite Hg in Hg'. simplify_eq. done.
Qed.

(** X18: a teacher who registers and then logs in with the same identifier
    and password is let in, and the session names that identifier; but the
    session passes the gate of [submit_achievements] only if the identifier
    is not the empty string, which registration accepts.  (For a hashing
    library that meets [HashContract].) *)
Theorem register_teacher_then_login `{P : Platform} (HC : HashContract P) (salt : string)
    (req attempt : Request) (w : World) (n i e p : string) :
  method req = "POST" ->
  form req !! "teacher_name" = Some n -> form req !! "teacher_id" = Some i ->
  form req !! "email" = Some e -> form req !! "password" = Some p -> p ≠ "" ->
  i ∉ (teacher_id <$> teachers (db w)) -> e ∉ (teacher_email <$> teachers (db w)) ->
  method attempt = "POST" ->
  form attempt !! "tname" = Some i -> form attempt !! "password" = Some p ->
  let w1 := snd (teacher_new salt req w) in
  let out := teacher attempt w1 in
  fst (teacher_new salt req w) = Ok (redirect "teacher" [])
  ∧ fst out = Ok (redirect "teacher-dashboard" [])
  ∧ sget (session (snd out)) "teacher_id" = PyStr i
  ∧ active_teacher_session (session (snd out)) = nonempty i.
Proof.
  intros Hm Hn Hi He Hpw Hp Hfi Hfe Hma Htn Hpa w1 out.
  destruct (hash_produced salt p Hp) as (h & Hg & Hh).
  destruct (teacher_new_inserts salt req w n i e p h) as (Hok & Hrows & _); try done.
  assert (first_teacher (db w1) (form attempt !! "tname") = Some (teacher_row req n i e h))
    as Hfound.
  { rewrite Htn. unfold first_teacher. simpl. subst w1. rewrite Hrows.
    by apply (find_fresh_app teacher_id). }
  assert (fst (verify_password (Some h) (form attempt !! "password") w1) = Ok true) as Hv.
  { rewrite Hpa. rewrite (verify_password_checked h p w1 true); [done..|].
    by eapply check_accepts. }
  subst out. rewrite (teacher_login_ok attempt w1 _ Hma Hfound Hv). simpl.
  destruct (sget_teacher_session (teacher_row req n i e h) (session w1)) as (Hl & Hid & _).
  unfold active_teacher_session. rewrite Hl, Hid. done.
Qed.

Lemma register_teacher_then_login_witness :
  let req := teacher_registration "Nobody" "" "nobody@example.org" "tex" in
  let attempt := post [("tname", ""); ("password", "tex")] in
  let w1 := snd (teacher_new (P := Sample.platform) "c2FsdA" req school) in
  let out := teacher (P := Sample.platform) attempt w1 in
  fst (teacher_new (P := Sample.platform) "c2FsdA" req school) = Ok (redirect "teacher" [])
  ∧ fst out = Ok (redirect "teacher-dashboard" [])
  ∧ sget (session (snd out)) "teacher_id" = PyStr ""
  ∧ active_teacher_session (session (snd out)) = nonempty "".
Proof.
  intros req attempt.
  apply (register_teacher_then_login (P := Sample.platform) sample_hash_contract "c2FsdA"
           req attempt school "Nobody" "" "nobody@example.org" "tex");
    try reflexivity; try discriminate.
  - simpl. rewrite !not_elem_of_cons. repeat split; try discriminate. apply not_elem_of_nil.
  - simpl. rewrite !not_elem_of_cons. repeat split; try discriminate. apply not_elem_of_nil.
Defined.

(** X19: what a failed login leaves in the log.  When the identifier is
    unknown, or the record is found and the check answers false, the only
    effects are the lookup and one warning, whose text is built from the
    submitted identifier alone: the password is not in it. *)
Theorem failed_login_logs_identifier_only `{P : Platform} :
  (∀ req w, method req = "POST" ->
     student_not_found req w
     ∨ (∃ so, first_student (db w) (form req !! "sname") = Some so
              ∧ ∀ w', verify_password (Some (student_password so))
                        (form req !! "password") w' = (Ok false, w')) ->
     snd (student req w)
     = logged w [EvSelect "student";
                 EvLog "warning" ("Failed login attempt for student_id: "
                                  ++ str_opt (form req !! "sname"))%string])
  ∧ (∀ req w, method req = "POST" ->
       teacher_not_found req w
       ∨ (∃ to, first_teacher (db w) (form req !! "tname") = Some to
                ∧ ∀ w', verify_password (Some (teacher_password to))
                          (form req !! "password") w' = (Ok false, w')) ->
       snd (teacher req w)
       = logged w [EvSelect "teacher";
                   EvLog "warning" ("Failed login attempt for teacher_id: "
                                    ++ str_opt (form req !! "tname"))%string]).
Proof.
  split; intros req w Hm Hfail.
  - unfold student. rewrite Hm. run_M.
    destruct Hfail as [Hnone|(so & Hsome & Hv)].
    + red in Hnone. rewrite Hnone. unfold logged. simpl. now rewrite <- app_assoc.
    + rewrite Hsome, Hv. unfold logged. simpl. now rewrite <- app_assoc.
  - unfold teacher. rewrite Hm. run_M.
    destruct Hfail as [Hnone|(to & Hsome & Hv)].
    + red in Hnone. rewrite Hnone. unfold logged. simpl. now rewrite <- app_assoc.
    + rewrite Hsome, Hv. unfold logged. simpl. now rewrite <- app_assoc.
Qed.

Lemma failed_login_logs_identifier_only_witness :
  snd (student (P := Sample.platform) (post [("sname", "S1"); ("password", "hunter2")]) school)
  = logged school [EvSelect "student";
                   EvLog "warning" "Failed login attempt for student_id: S1"]
  ∧ snd (teacher (P := Sample.platform) (post [("password", "chalk")]) school)
    = logged school [EvSelect "teacher";
                     EvLog "warning" "Failed login attempt for teacher_id: None"].
Proof.
  destruct (failed_login_logs_identifier_only (P := Sample.platform)) as [Hs Ht].
  apply conj.
  - apply (Hs (post [("sname", "S1"); ("password", "hunter2")]) school); [reflexivity|].
    right. exists alice. split; [reflexivity|]. intros w'. reflexivity.
  - apply (Ht (post [("password", "chalk")]) school); [reflexivity|].
    left. reflexivity.
Defined.
